(** * ai-code-analist: the context selector and the analysis client

    A shallow embedding of [src/services/geminiService.ts] (the function
    [analyzeCodebase] and its helper [isLikelyText]) and of the extraction
    step of [handleFileUpload], followed by the properties of the
    specification that concern them.

    JavaScript strings are sequences of UTF-16 code units; they are
    modelled as lists of code units, so that [length], [substring] and
    [endsWith] count what the engine counts. *)

From Stdlib Require Import ZArith NArith List Bool Lia Ascii String.
From stdpp Require Import base list.

Set Default Proof Using "Type".
Set Warnings "-register-all".

(* ===================================================================== *)
(** * Strings *)
(* ===================================================================== *)

(** A JavaScript string: its UTF-16 code units, in order. *)
Definition jsstring := list N.

(** The code units of an ASCII literal of the source. *)
Definition lit (s : string) : jsstring :=
  List.map N_of_ascii (list_ascii_of_string s).

(** The line feed written [\n] in the source's literals. *)
Definition nl : jsstring := [10%N].

(** The quotation mark, code unit 0x22. *)
Definition dq : jsstring := [34%N].

(** [String.prototype.substring(start, end)] for integer arguments: both
    indices are clamped to [0, length], swapped when out of order, and the
    code units between them are returned. *)
Definition substring (s : jsstring) (start end_ : Z) : jsstring :=
  let len := Z.of_nat (length s) in
  let finalStart := Z.min (Z.max start 0) len in
  let finalEnd := Z.min (Z.max end_ 0) len in
  let from := Z.min finalStart finalEnd in
  let to := Z.max finalStart finalEnd in
  take (Z.to_nat (to - from)) (drop (Z.to_nat from) s).

(** [String.prototype.endsWith(searchString)] with the default end
    position: the search string is compared with the code units that
    occupy the last [searchLength] positions, and a search string longer
    than the receiver never matches. *)
Definition endsWith (s searchString : jsstring) : bool :=
  let len := length s in
  let searchLength := length searchString in
  if (searchLength <=? len)%nat
  then bool_decide (drop (len - searchLength) s = searchString)
  else false.

(** [Array.prototype.slice(start, end)] for integer arguments: a negative
    index counts from the end, both are clamped to the array, and an empty
    array is returned when the range is empty. *)
Definition slice {A} (l : list A) (start end_ : Z) : list A :=
  let len := Z.of_nat (length l) in
  let k := if (start <? 0)%Z then Z.max (len + start) 0 else Z.min start len in
  let final := if (end_ <? 0)%Z then Z.max (len + end_) 0 else Z.min end_ len in
  take (Z.to_nat (Z.max (final - k) 0)) (drop (Z.to_nat k) l).

(** The loop of [Array.prototype.join]: [R] is the string built so far and
    [k] the index of the next element; the separator is appended before
    every element but the one at index 0. *)
Fixpoint join_loop (sep R : jsstring) (k : nat) (elems : list jsstring)
  : jsstring :=
  match elems with
  | [] => R
  | e :: rest =>
      let R' := match k with O => R | S _ => R ++ sep end in
      join_loop sep (R' ++ e) (S k) rest
  end.

(** [Array.prototype.join(sep)] on an array of strings. *)
Definition join (elems : list jsstring) (sep : jsstring) : jsstring :=
  join_loop sep [] 0 elems.

(** Is the code unit one of [A]..[Z]? *)
Definition isAsciiUpper (c : N) : bool := ((65 <=? c) && (c <=? 90))%N.

(** Lower-casing of one code unit of the ASCII range; every other code
    unit is left as it is. *)
Definition asciiLowerUnit (c : N) : N :=
  if isAsciiUpper c then (c + 32)%N else c.

(** Lower-casing of the ASCII letters of a string. *)
Definition asciiLower (s : jsstring) : jsstring := List.map asciiLowerUnit s.

(* ===================================================================== *)
(** * The host's built-ins *)
(* ===================================================================== *)

(** JSON values, as [JSON.parse] builds them.  A number keeps the text it
    was written with; an object keeps its members in insertion order, one
    per key. *)
Inductive json : Type :=
| JNull
| JBool (b : bool)
| JNumber (lexeme : jsstring)
| JString (s : jsstring)
| JArray (items : list json)
| JObject (members : list (jsstring * json)).

(** The built-ins the program calls whose definition lies with the
    JavaScript engine: Unicode lower-casing, locale-sensitive string
    comparison and the JSON parser ([None] when it throws a
    [SyntaxError]).  The program is modelled over any such host. *)
Class Host := {
  toLowerCase : jsstring -> jsstring;
  localeCompare : jsstring -> jsstring -> Z;
  JSON_parse : jsstring -> option json
}.

(* ===================================================================== *)
(** * Data model ([src/types.ts]) *)
(* ===================================================================== *)

Record ZipFile := mkZipFile {
  name : jsstring;
  path : jsstring;
  content : jsstring;
  isDirectory : bool
}.

(* ===================================================================== *)
(** * The context selector (first lines of [analyzeCodebase]) *)
(* ===================================================================== *)

Section ContextSelector.
Context `{Host}.

Definition textExtensions : list jsstring :=
  List.map lit
    [".ts"; ".tsx"; ".js"; ".jsx"; ".json"; ".html"; ".css"; ".md"; ".txt";
     ".py"; ".rb"; ".go"; ".java"; ".c"; ".cpp"; ".rs"; ".php"]%string.

(** [textExtensions.some(ext => filename.toLowerCase().endsWith(ext))] *)
Definition isLikelyText (filename : jsstring) : bool :=
  existsb (fun ext => endsWith (toLowerCase filename) ext) textExtensions.

(** The callback of the filter: [!f.isDirectory && isLikelyText(f.name)]. *)
Definition eligible (f : ZipFile) : bool :=
  negb (isDirectory f) && isLikelyText (name f).

(** [files.filter(f => !f.isDirectory && isLikelyText(f.name))] *)
Definition textFiles (files : list ZipFile) : list ZipFile :=
  List.filter eligible files.

(** [textFiles.slice(0, 30)] *)
Definition contextFiles (files : list ZipFile) : list ZipFile :=
  slice (textFiles files) 0 30.

(** The template literal of the map callback. *)
Definition fileBlock (f : ZipFile) : jsstring :=
  lit "FILE: " ++ path f ++ nl ++ lit "CONTENT:" ++ nl
    ++ substring (content f) 0 5000.

(** The separator given to [join]: ['\n\n---\n\n']. *)
Definition separator : jsstring := nl ++ nl ++ lit "---" ++ nl ++ nl.

(** The blocks of the selected entries, before they are joined. *)
Definition fileBlocks (files : list ZipFile) : list jsstring :=
  List.map fileBlock (contextFiles files).

(** [contextFiles.map(f => ...).join('\n\n---\n\n')] *)
Definition filesContext (files : list ZipFile) : jsstring :=
  join (fileBlocks files) separator.

(** The same filter and slice run on the entries paired with their
    positions in [files]; it only serves to say which positions of the
    input were selected. *)
Definition selectedPositions (files : list ZipFile) : list (nat * ZipFile) :=
  slice (List.filter (fun p => eligible (snd p))
                     (zip (seq 0 (length files)) files)) 0 30.

(** The specification's count of eligible-but-dropped entries: the
    eligible count minus 30, floored at 0.  It follows the
    specification's words; the source computes no such number. *)
Definition spec_droppedCount (files : list ZipFile) : nat :=
  length (textFiles files) - 30.
End ContextSelector.

(* ===================================================================== *)
(** * The analysis client (rest of [analyzeCodebase]) *)
(* ===================================================================== *)

(** The response schema declared in the request. *)
Inductive schema : Type :=
| TString (description : option string)
| TArray (items : schema) (description : option string)
| TObject (properties : list (string * schema)) (required : list string).

(** The argument of [ai.models.generateContent]. *)
Record request := mkRequest {
  model : jsstring;
  contents : jsstring;
  thinkingBudget : Z;
  responseMimeType : jsstring;
  responseSchema : schema
}.

(** What the awaited call does: the promise is rejected with some cause,
    it is fulfilled with a response whose [text] is a string or
    [undefined], or it never settles (the source sets no timeout). *)
Inductive upstream : Type :=
| Rejects (cause : jsstring)
| Resolves (text : option jsstring)
| NeverSettles.

(** The world outside the function: how the service answers a request,
    and the requests issued so far. *)
Record world := mkWorld {
  service : request -> upstream;
  sent : list request
}.

(** What [analyzeCodebase] can throw: the rejection of the awaited call,
    passed on as it is, or the [SyntaxError] of [JSON.parse]. *)
Inductive thrown : Type :=
| UpstreamError (cause : jsstring)
| SyntaxError.

(** How the promise returned by [analyzeCodebase] ends. *)
Inductive outcome : Type :=
| Fulfilled (result : json)
| Rejected (e : thrown)
| Pending.

(** The specification's names for the two kinds of failure. *)
Inductive ErrorKind : Type := ServiceUnavailable | ResponseContractViolation.

(** The name the specification gives to a thrown value.  The source
    classifies nothing: it passes on the upstream's own error or the
    parser's [SyntaxError], and the name is a gloss on them. *)
Definition errorKind (e : thrown) : ErrorKind :=
  match e with
  | UpstreamError _ => ServiceUnavailable
  | SyntaxError => ResponseContractViolation
  end.

Definition analysisSchema : schema :=
  TObject
    [("summary", TString (Some "A high-level summary of the project."));
     ("entryPoint",
       TString (Some "The likely main entry point of the application."));
     ("dependencies",
       TArray (TString None)
              (Some "List of major libraries or dependencies found."));
     ("executionSimulation",
       TString (Some "A detailed 'run' log or description of what happens when executed."));
     ("suggestions",
       TArray (TString None)
              (Some "Improvements or bugs found during analysis."))]%string
    ["summary"; "entryPoint"; "dependencies"; "executionSimulation";
     "suggestions"]%string.

(** The prompt: the template literal of the source with [filesContext]
    spliced in, line by line, indentation and trailing blanks included. *)
Definition prompt (filesContext : jsstring) : jsstring :=
  nl
  ++ lit "    You are a world-class code analyst and software engineer. I have uploaded a ZIP file containing source code. " ++ nl
  ++ lit "    Here is the content of the primary files in the project:" ++ nl
  ++ lit "    " ++ nl
  ++ lit "    " ++ filesContext ++ nl
  ++ lit "    " ++ nl
  ++ lit "    Please analyze this project. Determine what it is, how it works, and "
  ++ dq ++ lit "run" ++ dq ++ lit " it in your simulation." ++ nl
  ++ lit "    Explain what would happen if this code were executed in its appropriate environment." ++ nl
  ++ lit "    Identify the main entry point and key dependencies." ++ nl
  ++ lit "  ".

Definition analysisRequest (filesContext : jsstring) : request :=
  {| model := lit "gemini-3-pro-preview";
     contents := prompt filesContext;
     thinkingBudget := 20000;
     responseMimeType := lit "application/json";
     responseSchema := analysisSchema |}.

(** [ToString] of [response.text], which may be [undefined]. *)
Definition textToString (text : option jsstring) : jsstring :=
  match text with
  | Some s => s
  | None => lit "undefined"
  end.

Section AnalysisClient.
Context `{Host}.

(** [analyzeCodebase]: the context is built, the one request is issued,
    and the awaited answer decides how the promise ends.  The world
    returned records the request. *)
Definition analyzeCodebase (files : list ZipFile) (w : world)
  : outcome * world :=
  let req := analysisRequest (filesContext files) in
  let w' := {| service := service w; sent := sent w ++ [req] |} in
  match service w req with
  | Rejects cause => (Rejected (UpstreamError cause), w')
  | NeverSettles => (Pending, w')
  | Resolves text =>
      match JSON_parse (textToString text) with
      | Some v => (Fulfilled v, w')
      | None => (Rejected SyntaxError, w')
      end
  end.
End AnalysisClient.

(** The value of a member of a JSON object. *)
Fixpoint member (k : jsstring) (members : list (jsstring * json))
  : option json :=
  match members with
  | [] => None
  | (k', v) :: rest => if bool_decide (k' = k) then Some v else member k rest
  end.

(** Does a JSON value have the shape a schema asks for: the declared
    type, every required member present, and every declared member that
    is present of its declared type?  This is the check the specification
    asks of the client. *)
Fixpoint conforms (t : schema) (v : json) {struct t} : bool :=
  match t, v with
  | TString _, JString _ => true
  | TArray items _, JArray vs => forallb (conforms items) vs
  | TObject properties required, JObject members =>
      forallb (fun k => bool_decide (is_Some (member (lit k) members)))
              required
      && forallb (fun p =>
                    match member (lit (fst p)) members with
                    | Some v' => conforms (snd p) v'
                    | None => true
                    end) properties
  | _, _ => false
  end.

(* ===================================================================== *)
(** * Extraction ([handleFileUpload]) *)
(* ===================================================================== *)

(** An entry of the decoded archive, as the decoder hands it over: its
    [dir] flag, its [name], and the text [async('string')] yields. *)
Record zipEntry := mkZipEntry {
  dir : bool;
  entryName : jsstring;
  entryText : jsstring
}.

(** The object pushed for the key [path] of [content.files]. *)
Definition extractEntry (path : jsstring) (e : zipEntry) : ZipFile :=
  if dir e
  then {| name := entryName e; path := path; content := [];
          isDirectory := true |}
  else {| name := entryName e; path := path; content := entryText e;
          isDirectory := false |}.

(** Insertion of [x] in front of the first element it does not come
    after: [x] stays ahead of the elements it compares equal to. *)
Fixpoint insertBy {A} (comparefn : A -> A -> Z) (x : A) (l : list A)
  : list A :=
  match l with
  | [] => [x]
  | y :: l' =>
      if (comparefn x y <=? 0)%Z then x :: y :: l'
      else y :: insertBy comparefn x l'
  end.

(** [Array.prototype.sort(comparefn)], a stable sort: elements the
    comparator calls equal keep their relative order. *)
Fixpoint sort {A} (comparefn : A -> A -> Z) (l : list A) : list A :=
  match l with
  | [] => []
  | x :: l' => insertBy comparefn x (sort comparefn l')
  end.

Section Extraction.
Context `{Host}.

(** The comparator [(a, b) => a.path.localeCompare(b.path)]. *)
Definition comparePaths (a b : ZipFile) : Z :=
  localeCompare (path a) (path b).

(** The list given to [setFiles]: [extractedFiles] holds the pushed
    objects in the order in which the promises completed, and is
    sorted by path. *)
Definition uploadedFiles (extractedFiles : list ZipFile) : list ZipFile :=
  sort comparePaths extractedFiles.
End Extraction.

(** Comparison of two strings code unit by code unit, a proper prefix
    coming first: the order of the [<] operator on strings. *)
Fixpoint codeUnitCompare (a b : jsstring) : comparison :=
  match a, b with
  | [], [] => Eq
  | [], _ :: _ => Lt
  | _ :: _, [] => Gt
  | x :: a', y :: b' =>
      match N.compare x y with
      | Eq => codeUnitCompare a' b'
      | c => c
      end
  end.

(** [a <= b] in code-unit order. *)
Definition codeUnitLe (a b : jsstring) : bool :=
  match codeUnitCompare a b with
  | Gt => false
  | _ => true
  end.

(** Are the paths of every two consecutive entries in code-unit order? *)
Fixpoint codeUnitSorted (files : list ZipFile) : bool :=
  match files with
  | a :: ((b :: _) as rest) => codeUnitLe (path a) (path b) && codeUnitSorted rest
  | _ => true
  end.

(** Every two consecutive elements are in the comparator's order. *)
Inductive orderedBy {A} (comparefn : A -> A -> Z) : list A -> Prop :=
| orderedBy_nil : orderedBy comparefn []
| orderedBy_one x : orderedBy comparefn [x]
| orderedBy_cons x y l :
    (comparefn x y <= 0)%Z ->
    orderedBy comparefn (y :: l) ->
    orderedBy comparefn (x :: y :: l).

(** A comparator that is usable on the elements of [l]: of two elements
    one comes before or with the other, and coming before or with is
    transitive. *)
Definition consistentOn {A} (comparefn : A -> A -> Z) (l : list A) : Prop :=
  (forall a b, a ∈ l -> b ∈ l ->
     (comparefn a b <= 0)%Z \/ (comparefn b a <= 0)%Z)
  /\ (forall a b c, a ∈ l -> b ∈ l -> c ∈ l ->
        (comparefn a b <= 0)%Z -> (comparefn b c <= 0)%Z ->
        (comparefn a c <= 0)%Z).

(* ===================================================================== *)
(** * The selector on untyped objects *)
(* ===================================================================== *)

(** The selector once more, now on what the engine really sees: an array
    of references to objects whose properties may be missing or of the
    wrong type.  Property reads, method calls on a value that has no such
    method, and the state of the heap and of the network are explicit, so
    that "does not throw" and "changes nothing" can be stated. *)
Module Dynamic.

Inductive value : Type :=
| VUndefined
| VBoolean (b : bool)
| VString (s : jsstring).

(** An object: its own properties. *)
Definition object := list (jsstring * value).

(** The heap of objects, addressed by position, and the requests that
    have left the program. *)
Record state := mkState {
  heap : list object;
  outbound : list request
}.

Inductive exn : Type := TypeError.

(** Computations that read and write the state and may throw. *)
Definition M (A : Type) : Type := state -> (A + exn) * state.

Definition ret {A} (a : A) : M A := fun st => (inl a, st).
Definition throw {A} (e : exn) : M A := fun st => (inr e, st).
Definition bind {A B} (m : M A) (k : A -> M B) : M B :=
  fun st =>
    match m st with
    | (inl a, st') => k a st'
    | (inr e, st') => (inr e, st')
    end.

Notation "'let*' x ':=' m 'in' k" := (bind m (fun x => k))
  (at level 10, x name, m at level 100, k at level 200).

(** [o[k]] on an object: the property's value, [undefined] when the
    object has no such property. *)
Fixpoint getProp (o : object) (k : jsstring) : value :=
  match o with
  | [] => VUndefined
  | (k', v) :: rest => if bool_decide (k' = k) then v else getProp rest k
  end.

(** [f.k] where [f] is the array element held at [ref]: reading a
    property of a missing element throws. *)
Definition readProp (ref : nat) (k : string) : M value :=
  fun st =>
    match heap st !! ref with
    | Some o => (inl (getProp o (lit k)), st)
    | None => (inr TypeError, st)
    end.

Definition ToBoolean (v : value) : bool :=
  match v with
  | VUndefined => false
  | VBoolean b => b
  | VString s => negb (bool_decide (s = []))
  end.

Definition ToString (v : value) : jsstring :=
  match v with
  | VUndefined => lit "undefined"
  | VBoolean true => lit "true"
  | VBoolean false => lit "false"
  | VString s => s
  end.

Section Selector.
Context `{Host}.

(** [isLikelyText(filename)]: the first callback of [some] calls
    [filename.toLowerCase()], which throws unless [filename] is a
    string. *)
Definition isLikelyText (filename : value) : M bool :=
  match filename with
  | VString s =>
      ret (existsb (fun ext => endsWith (toLowerCase s) ext)
                   textExtensions)
  | _ => throw TypeError
  end.

(** [!f.isDirectory && isLikelyText(f.name)]: the right operand is
    evaluated only when the left one is true. *)
Definition eligible (ref : nat) : M bool :=
  let* d := readProp ref "isDirectory" in
  if negb (ToBoolean d) then
    let* n := readProp ref "name" in isLikelyText n
  else ret false.

(** [files.filter(...)]: the callback runs on every element in
    order, and the first throw ends the loop. *)
Fixpoint filter (files : list nat) : M (list nat) :=
  match files with
  | [] => ret []
  | ref :: rest =>
      let* keep := eligible ref in
      let* kept := filter rest in
      ret (if keep then ref :: kept else kept)
  end.

(** The callback of [map]: [f.path] is read, then
    [f.content.substring(0, 5000)] is evaluated, which throws unless
    [f.content] is a string. *)
Definition fileBlock (ref : nat) : M jsstring :=
  let* p := readProp ref "path" in
  let* c := readProp ref "content" in
  match c with
  | VString s =>
      ret (lit "FILE: " ++ ToString p ++ nl ++ lit "CONTENT:" ++ nl
             ++ substring s 0 5000)
  | _ => throw TypeError
  end.

Fixpoint map (refs : list nat) : M (list jsstring) :=
  match refs with
  | [] => ret []
  | ref :: rest =>
      let* b := fileBlock ref in
      let* bs := map rest in
      ret (b :: bs)
  end.

Definition filesContext (files : list nat) : M jsstring :=
  let* textFiles := filter files in
  let* blocks := map (slice textFiles 0 30) in
  ret (join blocks separator).
End Selector.

(** The object of a well-typed entry. *)
Definition objectOf (f : ZipFile) : object :=
  [(lit "name", VString (name f));
   (lit "path", VString (path f));
   (lit "content", VString (content f));
   (lit "isDirectory", VBoolean (isDirectory f))].

(** The heap holds at [ref] an object with the four properties of [f],
    each of its declared type. *)
Definition holds (st : state) (ref : nat) (f : ZipFile) : Prop :=
  exists o, heap st !! ref = Some o
    /\ getProp o (lit "name") = VString (name f)
    /\ getProp o (lit "path") = VString (path f)
    /\ getProp o (lit "content") = VString (content f)
    /\ getProp o (lit "isDirectory") = VBoolean (isDirectory f).

End Dynamic.

(* ===================================================================== *)
(** * A host to compute with *)
(* ===================================================================== *)

(** A parser for the JSON grammar, standing for the engine's [JSON.parse]
    wherever a concrete response body has to be evaluated. *)
Module JsonText.

Definition isWhitespace (c : N) : bool :=
  ((c =? 32) || (c =? 9) || (c =? 10) || (c =? 13))%N.

Definition isDigit (c : N) : bool := ((48 <=? c) && (c <=? 57))%N.

Fixpoint skipWhitespace (s : jsstring) : jsstring :=
  match s with
  | c :: rest => if isWhitespace c then skipWhitespace rest else s
  | [] => []
  end.

(** The digits at the head of [s], and what follows them. *)
Fixpoint digits (s : jsstring) : jsstring * jsstring :=
  match s with
  | c :: rest =>
      if isDigit c then let (ds, r) := digits rest in (c :: ds, r)
      else ([], s)
  | [] => ([], [])
  end.

Definition hexValue (c : N) : option N :=
  if isDigit c then Some (c - 48)%N
  else if ((97 <=? c) && (c <=? 102))%N then Some (c - 87)%N
  else if ((65 <=? c) && (c <=? 70))%N then Some (c - 55)%N
  else None.

Definition hex4 (a b c d : N) : option N :=
  match hexValue a, hexValue b, hexValue c, hexValue d with
  | Some x, Some y, Some z, Some w =>
      Some (x * 4096 + y * 256 + z * 16 + w)%N
  | _, _, _, _ => None
  end.

(** The code unit a one-letter escape stands for. *)
Definition unescape (c : N) : option N :=
  if (c =? 34)%N then Some 34%N
  else if (c =? 92)%N then Some 92%N
  else if (c =? 47)%N then Some 47%N
  else if (c =? 98)%N then Some 8%N
  else if (c =? 102)%N then Some 12%N
  else if (c =? 110)%N then Some 10%N
  else if (c =? 114)%N then Some 13%N
  else if (c =? 116)%N then Some 9%N
  else None.

(** The characters of a string after its opening quotation mark, up to
    the closing one; [acc] holds those read so far, last first. *)
Fixpoint stringChars (s acc : jsstring) : option (jsstring * jsstring) :=
  match s with
  | [] => None
  | c :: rest =>
      if (c =? 34)%N then Some (rev acc, rest)
      else if (c =? 92)%N then
        match rest with
        | e :: rest' =>
            if (e =? 117)%N then
              match rest' with
              | h1 :: h2 :: h3 :: h4 :: rest'' =>
                  match hex4 h1 h2 h3 h4 with
                  | Some u => stringChars rest'' (u :: acc)
                  | None => None
                  end
              | _ => None
              end
            else
              match unescape e with
              | Some u => stringChars rest' (u :: acc)
              | None => None
              end
        | [] => None
        end
      else if (c <? 32)%N then None
      else stringChars rest (c :: acc)
  end.

(** A number: optional minus sign, integer part without a leading zero,
    optional fraction, optional exponent. *)
Definition number (s : jsstring) : option (jsstring * jsstring) :=
  let (sign, s1) :=
    match s with
    | c :: r => if (c =? 45)%N then ([c], r) else ([], s)
    | [] => ([], s)
    end in
  match s1 with
  | [] => None
  | d :: r =>
      if negb (isDigit d) then None else
      let (int, s2) :=
        if (d =? 48)%N then ([d], r)
        else let (ds, r') := digits r in (d :: ds, r') in
      let frac :=
        match s2 with
        | c :: r2 =>
            if (c =? 46)%N then
              let (ds, r3) := digits r2 in
              match ds with [] => None | _ => Some (c :: ds, r3) end
            else Some ([], s2)
        | [] => Some ([], s2)
        end in
      match frac with
      | None => None
      | Some (fr, s3) =>
          match s3 with
          | c :: r3 =>
              if ((c =? 101) || (c =? 69))%N then
                let (esign, r4) :=
                  match r3 with
                  | c' :: r' =>
                      if ((c' =? 43) || (c' =? 45))%N then ([c'], r')
                      else ([], r3)
                  | [] => ([], r3)
                  end in
                let (ds, r5) := digits r4 in
                match ds with
                | [] => None
                | _ => Some (sign ++ int ++ fr ++ c :: esign ++ ds, r5)
                end
              else Some (sign ++ int ++ fr, s3)
          | [] => Some (sign ++ int ++ fr, s3)
          end
      end
  end.

(** Does [s] start with the literal [w]?  If so, what follows it. *)
Definition keyword (w : string) (s : jsstring) : option jsstring :=
  let k := lit w in
  if bool_decide (take (length k) s = k) then Some (drop (length k) s)
  else None.

(** [CreateDataProperty]: a key written twice keeps its first place
    and its last value. *)
Fixpoint setMember (k : jsstring) (v : json)
  (members : list (jsstring * json)) : list (jsstring * json) :=
  match members with
  | [] => [(k, v)]
  | (k', v') :: rest =>
      if bool_decide (k' = k) then (k, v) :: rest
      else (k', v') :: setMember k v rest
  end.

(** A value, the elements of an array after its opening bracket, and
    the members of an object after its opening brace.  Every call
    consumes input before it calls again, so [fuel] bounds the depth. *)
Fixpoint value (fuel : nat) (s : jsstring) : option (json * jsstring) :=
  match fuel with
  | O => None
  | S fuel' =>
      match skipWhitespace s with
      | [] => None
      | c :: rest =>
          if (c =? 123)%N then
            match skipWhitespace rest with
            | c' :: r =>
                if (c' =? 125)%N then Some (JObject [], r)
                else members fuel' rest []
            | [] => None
            end
          else if (c =? 91)%N then
            match skipWhitespace rest with
            | c' :: r =>
                if (c' =? 93)%N then Some (JArray [], r)
                else elements fuel' rest []
            | [] => None
            end
          else if (c =? 34)%N then
            match stringChars rest [] with
            | Some (str, r) => Some (JString str, r)
            | None => None
            end
          else if (c =? 116)%N then
            match keyword "true" (c :: rest) with
            | Some r => Some (JBool true, r)
            | None => None
            end
          else if (c =? 102)%N then
            match keyword "false" (c :: rest) with
            | Some r => Some (JBool false, r)
            | None => None
            end
          else if (c =? 110)%N then
            match keyword "null" (c :: rest) with
            | Some r => Some (JNull, r)
            | None => None
            end
          else
            match number (c :: rest) with
            | Some (lexeme, r) => Some (JNumber lexeme, r)
            | None => None
            end
      end
  end
with elements (fuel : nat) (s : jsstring) (acc : list json)
  : option (json * jsstring) :=
  match fuel with
  | O => None
  | S fuel' =>
      match value fuel' s with
      | Some (v, r) =>
          match skipWhitespace r with
          | c :: r' =>
              if (c =? 44)%N then elements fuel' r' (v :: acc)
              else if (c =? 93)%N then Some (JArray (rev (v :: acc)), r')
              else None
          | [] => None
          end
      | None => None
      end
  end
with members (fuel : nat) (s : jsstring) (acc : list (jsstring * json))
  : option (json * jsstring) :=
  match fuel with
  | O => None
  | S fuel' =>
      match skipWhitespace s with
      | q :: r0 =>
          if negb (q =? 34)%N then None else
          match stringChars r0 [] with
          | Some (k, r1) =>
              match skipWhitespace r1 with
              | colon :: r2 =>
                  if negb (colon =? 58)%N then None else
                  match value fuel' r2 with
                  | Some (v, r3) =>
                      match skipWhitespace r3 with
                      | c :: r4 =>
                          if (c =? 44)%N
                          then members fuel' r4 (setMember k v acc)
                          else if (c =? 125)%N
                          then Some (JObject (setMember k v acc), r4)
                          else None
                      | [] => None
                      end
                  | None => None
                  end
              | [] => None
              end
          | None => None
          end
      | [] => None
      end
  end.

(** The whole text must be one value, white space around it allowed. *)
Definition parse (text : jsstring) : option json :=
  match value (2 * length text + 2) text with
  | Some (v, r) =>
      match skipWhitespace r with
      | [] => Some v
      | _ :: _ => None
      end
  | None => None
  end.
End JsonText.

(** Comparison of paths by letters first and case last, as the engines'
    default collation orders strings of ASCII letters and digits: digits
    before letters, letters alphabetically whatever their case, and, when
    two strings are the same up to case, lower case before upper case at
    the first difference.  Other code units are ranked by their value,
    below the digits when ASCII. *)
Module Collation.

Definition isAsciiLetter (c : N) : bool :=
  (isAsciiUpper c || ((97 <=? c) && (c <=? 122)))%N.

Definition primary (c : N) : N :=
  if isAsciiLetter c then (1000 + asciiLowerUnit c)%N
  else if JsonText.isDigit c then (500 + c)%N
  else if (c <? 128)%N then c
  else (2000 + c)%N.

Definition tertiary (c : N) : N := if isAsciiUpper c then 1%N else 0%N.

Definition compare (a b : jsstring) : Z :=
  match codeUnitCompare (List.map primary a) (List.map primary b) with
  | Lt => (-1)%Z
  | Gt => 1%Z
  | Eq =>
      match codeUnitCompare (List.map tertiary a) (List.map tertiary b) with
      | Lt => (-1)%Z
      | Gt => 1%Z
      | Eq => 0%Z
      end
  end.
End Collation.

(** The host used to evaluate the program on concrete inputs.  It agrees
    with the engine on the ASCII strings the examples use. *)
Definition modelHost : Host :=
  {| toLowerCase := asciiLower;
     localeCompare := Collation.compare;
     JSON_parse := JsonText.parse |}.

(** A literal in which the apostrophe stands for the quotation mark. *)
Definition qlit (s : string) : jsstring :=
  List.map (fun c => if (c =? 39)%N then 34%N else c) (lit s).

(* ===================================================================== *)
(** * The application ([App], second part of [src/types.ts]) *)
(* ===================================================================== *)

(** The component's state and its event handlers.  A handler that awaits
    is given in two halves, what runs up to its first [await] and what
    runs once the awaited work has settled, so that other events can be
    placed between them. *)
Module App.

(** The six [useState] cells. *)
Record state := mkState {
  files : list ZipFile;
  selectedFile : option ZipFile;
  isUploading : bool;
  isAnalyzing : bool;
  analysis : option json;
  error : option jsstring
}.

(** The initial values given to [useState]. *)
Definition initial : state :=
  {| files := []; selectedFile := None; isUploading := false;
     isAnalyzing := false; analysis := None; error := None |}.

Definition setFiles (v : list ZipFile) (st : state) : state :=
  {| files := v; selectedFile := selectedFile st;
     isUploading := isUploading st; isAnalyzing := isAnalyzing st;
     analysis := analysis st; error := error st |}.

Definition setSelectedFile (v : option ZipFile) (st : state) : state :=
  {| files := files st; selectedFile := v;
     isUploading := isUploading st; isAnalyzing := isAnalyzing st;
     analysis := analysis st; error := error st |}.

Definition setIsUploading (v : bool) (st : state) : state :=
  {| files := files st; selectedFile := selectedFile st;
     isUploading := v; isAnalyzing := isAnalyzing st;
     analysis := analysis st; error := error st |}.

Definition setIsAnalyzing (v : bool) (st : state) : state :=
  {| files := files st; selectedFile := selectedFile st;
     isUploading := isUploading st; isAnalyzing := v;
     analysis := analysis st; error := error st |}.

Definition setAnalysis (v : option json) (st : state) : state :=
  {| files := files st; selectedFile := selectedFile st;
     isUploading := isUploading st; isAnalyzing := isAnalyzing st;
     analysis := v; error := error st |}.

Definition setError (v : option jsstring) (st : state) : state :=
  {| files := files st; selectedFile := selectedFile st;
     isUploading := isUploading st; isAnalyzing := isAnalyzing st;
     analysis := analysis st; error := v |}.

(** The three messages given to [setError]. *)
Definition invalidZipMessage : jsstring :=
  lit "Please upload a valid ZIP file.".

Definition extractFailedMessage : jsstring :=
  lit "Failed to extract ZIP file. It might be corrupted.".

Definition analysisFailedMessage : jsstring :=
  lit "Gemini analysis failed. Please try again.".

(** How the decoding inside the [try] of [handleFileUpload] ends:
    [loadAsync] or the read of an entry is rejected, or every promise is
    fulfilled and [extractedFiles] holds the pushed objects in the order
    in which the reads completed. *)
Inductive decoded : Type :=
| DecodeFails
| Extracted (extractedFiles : list ZipFile).

(** The objects pushed for an archive are those of its entries, in some
    order. *)
Definition pushedFrom (entries : list (jsstring * zipEntry))
  (extractedFiles : list ZipFile) : Prop :=
  extractedFiles ≡ₚ List.map (fun pe => extractEntry (fst pe) (snd pe)) entries.

Section Handlers.
Context `{Host}.

(** [handleFileUpload] up to [zip.loadAsync]: [file] is
    [event.target.files?.[0]], given by its name.  The flag tells
    whether decoding was started. *)
Definition handleFileUpload_begin (file : option jsstring) (st : state)
  : state * bool :=
  match file with
  | None => (st, false)
  | Some fileName =>
      if negb (endsWith fileName (lit ".zip"))
      then (setError (Some invalidZipMessage) st, false)
      else (setSelectedFile None
              (setFiles []
                 (setAnalysis None
                    (setError None (setIsUploading true st)))), true)
  end.

(** The rest of [handleFileUpload]: [setFiles] on success, [setError] in
    the [catch], and [setIsUploading(false)] in the [finally]. *)
Definition handleFileUpload_finish (d : decoded) (st : state) : state :=
  match d with
  | Extracted extractedFiles =>
      setIsUploading false (setFiles (uploadedFiles extractedFiles) st)
  | DecodeFails =>
      setIsUploading false (setError (Some extractFailedMessage) st)
  end.

(** [handleFileUpload] run to its end with nothing in between. *)
Definition handleFileUpload (file : option jsstring) (d : decoded)
  (st : state) : state :=
  let (st1, started) := handleFileUpload_begin file st in
  if started then handleFileUpload_finish d st1 else st1.

(** [runAnalysis] up to the [await]: the guard, the two setters, and
    the call of [analyzeCodebase], which sends its request.  The outcome
    of the call is kept for the second half; there is none when the
    guard returned. *)
Definition runAnalysis_begin (st : state) (w : world)
  : state * world * option outcome :=
  match files st with
  | [] => (st, w, None)
  | _ :: _ =>
      let (o, w') := analyzeCodebase (files st) w in
      (setError None (setIsAnalyzing true st), w', Some o)
  end.

(** The content of the [analysis] cell after [setAnalysis(result)]: the
    cell is [AnalysisResult | null], so that a parsed [null] leaves it
    as empty as it was at first, and any other value is held as it is. *)
Definition reportCell (result : json) : option json :=
  match result with
  | JNull => None
  | _ => Some result
  end.

(** The rest of [runAnalysis] once the call has settled; while it is
    pending nothing runs. *)
Definition runAnalysis_finish (o : outcome) (st : state) : state :=
  match o with
  | Fulfilled result =>
      setIsAnalyzing false (setAnalysis (reportCell result) st)
  | Rejected _ =>
      setIsAnalyzing false (setError (Some analysisFailedMessage) st)
  | Pending => st
  end.

(** [runAnalysis] run to its end with nothing in between. *)
Definition runAnalysis (st : state) (w : world) : state * world :=
  match runAnalysis_begin st w with
  | (st1, w', Some o) => (runAnalysis_finish o st1, w')
  | (st1, w', None) => (st1, w')
  end.
End Handlers.

(** The badge of the sidebar: [files.filter(f => !f.isDirectory).length]. *)
Definition fileCount (st : state) : nat :=
  length (List.filter (fun f => negb (isDirectory f)) (files st)).

(** [disabled] of the Run button: [files.length === 0 || isAnalyzing]. *)
Definition runDisabled (st : state) : bool :=
  (length (files st) =? 0)%nat || isAnalyzing st.

(** A click on the [i]-th item of the list, which is rendered only when
    no upload is going on: [!file.isDirectory && setSelectedFile(file)]. *)
Definition clickFile (i : nat) (st : state) : state :=
  if isUploading st then st
  else
    match files st !! i with
    | Some file =>
        if negb (isDirectory file) then setSelectedFile (Some file) st
        else st
    | None => st
    end.

(** [analysis.k] for a parsed response that is shown: an object gives
    its member, anything else has no such property. *)
Definition property (analysis : json) (k : string) : option json :=
  match analysis with
  | JObject members => member (lit k) members
  | _ => None
  end.

(** The receiver of a [.map(...)] in the report: only an array has the
    method, on anything else the call throws ([None]). *)
Definition mapReceiver (v : option json) : option (list json) :=
  match v with
  | Some (JArray items) => Some items
  | _ => None
  end.

(** The two lists of the report panel, [analysis.dependencies.map(...)]
    and then [analysis.suggestions.map(...)], for an analysis that is
    shown, as every object is ([analysis && ...]); [None] when rendering
    throws a [TypeError]. *)
Definition reportLists (analysis : json) : option (list json * list json) :=
  match mapReceiver (property analysis "dependencies") with
  | Some dependencies =>
      match mapReceiver (property analysis "suggestions") with
      | Some suggestions => Some (dependencies, suggestions)
      | None => None
      end
  | None => None
  end.

(** The component together with what is under way: the network, the
    uploads being decoded and the analyses awaited, each with the way it
    is going to end. *)
Record machine := mkMachine {
  app : state;
  net : world;
  uploads : list decoded;
  analyses : list outcome
}.

Inductive event : Type :=
| PickFile (file : option jsstring) (d : decoded)
| UploadSettles (k : nat)
| ClickRun
| AnalysisSettles (k : nat)
| ClickFile (i : nat).

Section Machine.
Context `{Host}.

Definition step (m : machine) (e : event) : machine :=
  match e with
  | PickFile file d =>
      let (st1, started) := handleFileUpload_begin file (app m) in
      {| app := st1; net := net m;
         uploads := if started then uploads m ++ [d] else uploads m;
         analyses := analyses m |}
  | UploadSettles k =>
      match uploads m !! k with
      | Some d =>
          {| app := handleFileUpload_finish d (app m); net := net m;
             uploads := delete k (uploads m); analyses := analyses m |}
      | None => m
      end
  | ClickRun =>
      if runDisabled (app m) then m
      else
        match runAnalysis_begin (app m) (net m) with
        | (st1, w', Some o) =>
            {| app := st1; net := w'; uploads := uploads m;
               analyses := analyses m ++ [o] |}
        | (st1, w', None) =>
            {| app := st1; net := w'; uploads := uploads m;
               analyses := analyses m |}
        end
  | AnalysisSettles k =>
      match analyses m !! k with
      | Some Pending | None => m
      | Some o =>
          {| app := runAnalysis_finish o (app m); net := net m;
             uploads := uploads m; analyses := delete k (analyses m) |}
      end
  | ClickFile i =>
      {| app := clickFile i (app m); net := net m; uploads := uploads m;
         analyses := analyses m |}
  end.

(** The events taken one after the other. *)
Definition run (m : machine) (events : list event) : machine :=
  foldl step m events.
End Machine.

(** The component as mounted, facing a given network. *)
Definition mounted (w : world) : machine :=
  {| app := initial; net := w; uploads := []; analyses := [] |}.

(** Number of clicks on the Run button among the events. *)
Definition runClicks (events : list event) : nat :=
  length (List.filter (fun e => match e with ClickRun => true | _ => false end)
                      events).

(** The selected file, if any, is not a directory. *)
Definition selectionIsFile (st : state) : Prop :=
  match selectedFile st with
  | Some f => isDirectory f = false
  | None => True
  end.

(** As many analyses are awaited as [isAnalyzing] tells. *)
Definition oneAwaited (m : machine) : Prop :=
  length (analyses m) = if isAnalyzing (app m) then 1%nat else 0%nat.

End App.

(* ===================================================================== *)
(** * Example data *)
(* ===================================================================== *)

(** The decimal digit [d] as a code unit. *)
Definition digit (d : nat) : N := (48 + N.of_nat d)%N.

(** The path [fNN.ts]. *)
Definition tsPath (i : nat) : jsstring :=
  lit "f" ++ [digit (i / 10); digit (i mod 10)] ++ lit ".ts".

(** A file [fNN.ts] whose content is its own path. *)
Definition tsFile (i : nat) : ZipFile :=
  {| name := tsPath i; path := tsPath i; content := tsPath i;
     isDirectory := false |}.

(** [f01.ts] to [f40.ts]. *)
Definition fortyFiles : list ZipFile := List.map tsFile (seq 1 40).

(** A file of 6000 characters. *)
Definition longFile : ZipFile :=
  {| name := lit "long.txt"; path := lit "docs/long.txt";
     content := List.repeat 120%N (Z.to_nat 5000)
                  ++ List.repeat 121%N (Z.to_nat 1000);
     isDirectory := false |}.

(** A service that answers every request with the same body. *)
Definition answering (body : jsstring) : world :=
  {| service := fun _ => Resolves (Some body); sent := [] |}.

(** A service whose call fails with the given cause. *)
Definition failing (cause : jsstring) : world :=
  {| service := fun _ => Rejects cause; sent := [] |}.

(** A service that never answers. *)
Definition hanging : world :=
  {| service := fun _ => NeverSettles; sent := [] |}.

(** A response body that has every required field but [dependencies]. *)
Definition bodyWithoutDependencies : jsstring :=
  qlit "{'summary':'s','entryPoint':'main.ts','executionSimulation':'x','suggestions':[]}".

(** A response body with the five required fields. *)
Definition completeBody : jsstring :=
  qlit "{'summary':'s','entryPoint':'main.ts','dependencies':['react'],'executionSimulation':'x','suggestions':[]}".

(** The header of a block: everything in front of the content. *)
Definition blockHeader (f : ZipFile) : jsstring :=
  lit "FILE: " ++ path f ++ nl ++ lit "CONTENT:" ++ nl.

(** The two files of the examples on ordering. *)
Definition upperB : ZipFile :=
  {| name := lit "B.ts"; path := lit "B.ts"; content := [];
     isDirectory := false |}.

Definition lowerA : ZipFile :=
  {| name := lit "a.ts"; path := lit "a.ts"; content := [];
     isDirectory := false |}.

(** A heap with a source file, a directory and an entry whose path and
    content are empty. *)
Definition sampleState : Dynamic.state :=
  {| Dynamic.heap :=
       [Dynamic.objectOf (tsFile 1);
        Dynamic.objectOf (mkZipFile (lit "src/") (lit "src/") [] true);
        Dynamic.objectOf (mkZipFile (lit ".md") [] [] false)];
     Dynamic.outbound := [] |}.

(* ===================================================================== *)
(** * Lemmas on the string and array operations *)
(* ===================================================================== *)

Lemma slice_0 {A} (l : list A) (n : Z) :
  (0 <= n)%Z -> slice l 0 n = take (Z.to_nat n) l.
Proof.
  intros Hn. unfold slice.
  assert (Hlt : (n <? 0)%Z = false) by (apply Z.ltb_ge; exact Hn).
  rewrite Hlt. cbn [Z.ltb Z.compare].
  replace (Z.to_nat (Z.min 0 (Z.of_nat (length l)))) with 0%nat by lia.
  rewrite drop_0.
  destruct (Z.le_gt_cases n (Z.of_nat (length l))) as [Hle | Hgt].
  - f_equal. lia.
  - rewrite (take_ge l (Z.to_nat n)) by lia.
    apply take_ge. lia.
Qed.

Lemma substring_0 (s : jsstring) (n : Z) :
  (0 <= n)%Z -> substring s 0 n = take (Z.to_nat n) s.
Proof.
  intros Hn. unfold substring.
  replace (Z.to_nat _) with (Z.to_nat (Z.min n (Z.of_nat (length s)))) by lia.
  replace (Z.to_nat (Z.min (Z.min (Z.max 0 0) _) _)) with 0%nat by lia.
  rewrite drop_0.
  destruct (Z.le_gt_cases n (Z.of_nat (length s))) as [Hle | Hgt].
  - f_equal. lia.
  - rewrite (take_ge s (Z.to_nat n)) by lia.
    apply take_ge. lia.
Qed.

Lemma endsWith_suffix (s x : jsstring) :
  endsWith s x = true <-> x `suffix_of` s.
Proof.
  unfold endsWith. split.
  - destruct (Nat.leb_spec (length x) (length s)) as [Hle | Hlt]; [|discriminate].
    intros Heq. apply bool_decide_eq_true in Heq.
    exists (take (length s - length x) s).
    rewrite <- Heq at 2. symmetry. apply take_drop.
  - intros [k ->]. rewrite length_app.
    destruct (Nat.leb_spec (length x) (length k + length x)) as [Hle | Hlt];
      [|lia].
    apply bool_decide_eq_true.
    replace (length k + length x - length x)%nat with (length k) by lia.
    apply drop_app_length.
Qed.

Lemma join_loop_spec (sep R : jsstring) (k : nat) (elems : list jsstring) :
  join_loop sep R (S k) elems
  = R ++ concat (List.map (fun e => sep ++ e) elems).
Proof.
  revert R k. induction elems as [|e rest IH]; intros R k; simpl.
  - symmetry. apply app_nil_r.
  - rewrite IH. rewrite <- !app_assoc. reflexivity.
Qed.

Lemma join_nil (sep : jsstring) : join [] sep = [].
Proof. reflexivity. Qed.

Lemma join_singleton (e sep : jsstring) : join [e] sep = e.
Proof. reflexivity. Qed.

Lemma join_cons (e : jsstring) (rest : list jsstring) (sep : jsstring) :
  join (e :: rest) sep = e ++ concat (List.map (fun x => sep ++ x) rest).
Proof. unfold join. simpl. apply join_loop_spec. Qed.

Lemma join_cons_cons (e e' : jsstring) (rest : list jsstring)
  (sep : jsstring) :
  join (e :: e' :: rest) sep = e ++ sep ++ join (e' :: rest) sep.
Proof.
  rewrite !join_cons. simpl. rewrite <- app_assoc. reflexivity.
Qed.

Lemma join_snoc (elems : list jsstring) (e e' sep : jsstring) :
  join (elems ++ [e; e']) sep = join (elems ++ [e]) sep ++ sep ++ e'.
Proof.
  destruct elems as [|x elems]; simpl.
  - rewrite join_cons_cons, join_singleton. reflexivity.
  - rewrite !join_cons, !map_app, !concat_app. simpl.
    rewrite !app_nil_r, <- !app_assoc. reflexivity.
Qed.

(* ===================================================================== *)
(** * The context selector *)
(* ===================================================================== *)

(** Which positions survive a filter followed by a [take]: those whose
    element passes the filter and has fewer than [n] passing elements in
    front of it. *)
Lemma elem_of_take_filter_zip {A} (p : A -> bool) (l : list A)
  (s n i : nat) (x : A) :
  (i, x) ∈ take n (List.filter (fun q => p (snd q)) (zip (seq s (length l)) l))
  <-> (s <= i)%nat /\ l !! (i - s)%nat = Some x /\ p x = true
      /\ (length (List.filter p (take (i - s) l)) < n)%nat.
Proof.
  revert s n. induction l as [|y l IH]; intros s n.
  - simpl. rewrite take_nil. split.
    + intros Hin. inversion Hin.
    + intros (_ & Hl & _). discriminate.
  - cbn [length seq zip zip_with List.filter snd].
    destruct (p y) eqn:Hy.
    + destruct n as [|n].
      * rewrite take_0. split; [intros Hin; inversion Hin | lia].
      * cbn [take]. rewrite elem_of_cons, IH. split.
        -- intros [Heq | (Hs & Hl & Hp & Hn)].
           ++ inversion Heq; subst. rewrite Nat.sub_diag. simpl.
              repeat split; auto with lia.
           ++ replace (i - s)%nat with (S (i - S s)) by lia.
              cbn [lookup list_lookup take List.filter]. rewrite Hy.
              simpl. repeat split; auto with lia.
        -- intros (Hs & Hl & Hp & Hn).
           destruct (decide (i = s)) as [-> | Hne].
           ++ left. rewrite Nat.sub_diag in Hl. simpl in Hl.
              congruence.
           ++ right. replace (i - s)%nat with (S (i - S s)) in Hl, Hn by lia.
              cbn [lookup list_lookup take List.filter] in Hl, Hn.
              rewrite Hy in Hn. simpl in Hn.
              repeat split; auto with lia.
    + rewrite IH. split.
      * intros (Hs & Hl & Hp & Hn).
        replace (i - s)%nat with (S (i - S s)) by lia.
        cbn [lookup list_lookup take List.filter]. rewrite Hy.
        repeat split; auto with lia.
      * intros (Hs & Hl & Hp & Hn).
        destruct (decide (i = s)) as [-> | Hne].
        -- rewrite Nat.sub_diag in Hl. simpl in Hl. congruence.
        -- replace (i - s)%nat with (S (i - S s)) in Hl, Hn by lia.
           cbn [lookup list_lookup take List.filter] in Hl, Hn.
           rewrite Hy in Hn.
           repeat split; auto with lia.
Qed.

(** Forgetting the positions gives back the filter of the source. *)
Lemma filter_zip_snd {A} (p : A -> bool) (l : list A) (s : nat) :
  List.map snd (List.filter (fun q => p (snd q)) (zip (seq s (length l)) l))
  = List.filter p l.
Proof.
  revert s. induction l as [|y l IH]; intros s; [reflexivity|].
  cbn [length seq zip zip_with List.filter snd].
  destruct (p y); simpl; rewrite IH; reflexivity.
Qed.

Section ContextSelectorFacts.
Context `{Host}.

Lemma contextFiles_take (files : list ZipFile) :
  contextFiles files = take 30 (textFiles files).
Proof. unfold contextFiles. rewrite slice_0 by lia. reflexivity. Qed.

Lemma selectedPositions_snd (files : list ZipFile) :
  List.map snd (selectedPositions files) = contextFiles files.
Proof.
  rewrite contextFiles_take. unfold selectedPositions, textFiles.
  rewrite slice_0 by lia. change (Z.to_nat 30) with 30%nat.
  rewrite <- (filter_zip_snd eligible files 0).
  symmetry. apply firstn_map.
Qed.

Lemma isLikelyText_spec (filename : jsstring) :
  isLikelyText filename = true
  <-> exists ext, ext ∈ textExtensions
        /\ endsWith (toLowerCase filename) ext = true.
Proof.
  unfold isLikelyText. rewrite existsb_exists.
  split; intros (ext & Hin & He); exists ext; split; auto;
    apply list_elem_of_In; exact Hin.
Qed.

Lemma eligible_spec (f : ZipFile) :
  eligible f = true
  <-> isDirectory f = false
      /\ exists ext, ext ∈ textExtensions
           /\ endsWith (toLowerCase (name f)) ext = true.
Proof.
  unfold eligible. rewrite andb_true_iff, negb_true_iff, isLikelyText_spec.
  reflexivity.
Qed.

Lemma contextFiles_eligible (files : list ZipFile) :
  Forall (fun f => eligible f = true) (contextFiles files).
Proof.
  rewrite contextFiles_take. apply Forall_take.
  apply List.Forall_forall. intros f Hin.
  apply filter_In in Hin. tauto.
Qed.

Lemma contextFiles_length (files : list ZipFile) :
  length (contextFiles files) = Nat.min 30 (length (textFiles files)).
Proof. rewrite contextFiles_take. apply length_take. Qed.

Lemma textFiles_all (files : list ZipFile) :
  Forall (fun f => eligible f = true) files -> textFiles files = files.
Proof.
  unfold textFiles. induction 1 as [|f l Hf _ IH]; simpl; [reflexivity|].
  rewrite Hf, IH. reflexivity.
Qed.

Lemma textFiles_none (files : list ZipFile) :
  Forall (fun f => eligible f = false) files -> textFiles files = [].
Proof.
  unfold textFiles. induction 1 as [|f l Hf _ IH]; simpl; [reflexivity|].
  rewrite Hf, IH. reflexivity.
Qed.
End ContextSelectorFacts.

Lemma fileBlock_header (f : ZipFile) :
  fileBlock f = blockHeader f ++ take (Z.to_nat 5000) (content f).
Proof.
  unfold fileBlock, blockHeader. rewrite substring_0 by lia.
  rewrite <- !app_assoc. reflexivity.
Qed.

Section ContextSelectorClaims.
Context `{Host}.

(** C1. An entry contributes a [FILE:] block exactly when it is not a
    directory, its lower-cased name ends in one of the seventeen
    extensions of [textExtensions], and fewer than 30 eligible entries
    stand before it in the list.  The blocks of the output are the
    blocks of the selected positions, in order, and no selected entry
    is a directory. *)
Theorem selection_iff (files : list ZipFile) :
  List.map snd (selectedPositions files) = contextFiles files
  /\ filesContext files
     = join (List.map (fun q => fileBlock (snd q)) (selectedPositions files))
            separator
  /\ (forall (i : nat) (f : ZipFile),
        (i, f) ∈ selectedPositions files
        <-> files !! i = Some f
            /\ isDirectory f = false
            /\ (exists ext, ext ∈ textExtensions
                  /\ ext `suffix_of` toLowerCase (name f))
            /\ (length (textFiles (take i files)) < 30)%nat)
  /\ textExtensions
     = List.map lit
         [".ts"; ".tsx"; ".js"; ".jsx"; ".json"; ".html"; ".css"; ".md";
          ".txt"; ".py"; ".rb"; ".go"; ".java"; ".c"; ".cpp"; ".rs";
          ".php"]%string
  /\ Forall (fun f => isDirectory f = false) (contextFiles files).
Proof.
  split; [apply selectedPositions_snd|]. split; [|split; [|split]].
  - unfold filesContext, fileBlocks.
    rewrite <- selectedPositions_snd, List.map_map. reflexivity.
  - intros i f. unfold selectedPositions. rewrite slice_0 by lia.
    change (Z.to_nat 30) with 30%nat.
    rewrite (elem_of_take_filter_zip eligible files 0 30 i f).
    rewrite Nat.sub_0_r, eligible_spec. unfold textFiles.
    setoid_rewrite endsWith_suffix.
    split; intros Hc; repeat split; try tauto; lia.
  - reflexivity.
  - eapply Forall_impl; [apply contextFiles_eligible|].
    intros f Hf. apply eligible_spec in Hf. tauto.
Qed.


(** C3. The content emitted for a selected entry is the prefix of its
    content of length at most 5000; for a content of 6000 characters it
    is exactly the first 5000. *)
Theorem emitted_content_prefix (files : list ZipFile) :
  Forall2
    (fun f block =>
       exists emitted,
         block = blockHeader f ++ emitted
         /\ emitted `prefix_of` content f
         /\ (Z.of_nat (length emitted) <= 5000)%Z
         /\ (Z.of_nat (length (content f)) = 6000%Z ->
             emitted = take (Z.to_nat 5000) (content f)
             /\ Z.of_nat (length emitted) = 5000%Z))
    (contextFiles files) (fileBlocks files).
Proof.
  unfold fileBlocks. apply Forall2_fmap_r, Forall_Forall2_diag.
  apply List.Forall_forall. intros f _.
  exists (take (Z.to_nat 5000) (content f)). split; [apply fileBlock_header|].
  split; [apply prefix_take|]. split; [rewrite length_take; lia|].
  intros Hlen. split; [reflexivity|]. rewrite length_take. lia.
Qed.

(** C4. The serialized context is the block of the first selected
    entry followed, for every further selected entry, by the separator
    (a blank line, a line [---], a blank line) and that entry's block;
    nothing follows the last block.  Each block is [FILE: ], the path,
    a line feed, [CONTENT:], a line feed and the truncated content.
    With no entry, or none eligible, the string is empty. *)
Theorem serialization (files : list ZipFile) :
  filesContext files
    = match contextFiles files with
      | [] => []
      | f :: rest =>
          fileBlock f
            ++ concat (List.map (fun g => separator ++ fileBlock g) rest)
      end
  /\ (forall f, fileBlock f
        = lit "FILE: " ++ path f ++ [10%N] ++ lit "CONTENT:" ++ [10%N]
            ++ take (Z.to_nat 5000) (content f))
  /\ separator = [10%N; 10%N] ++ lit "---" ++ [10%N; 10%N]
  /\ (forall front f g,
        contextFiles files = front ++ [f; g] ->
        filesContext files
        = join (List.map fileBlock (front ++ [f])) separator
            ++ separator ++ fileBlock g)
  /\ (forall f, contextFiles files = [f] -> filesContext files = fileBlock f)
  /\ (files = [] -> filesContext files = [])
  /\ (Forall (fun f => eligible f = false) files -> filesContext files = []).
Proof.
  split; [|split; [|split; [|split; [|split; [|split]]]]].
  - unfold filesContext, fileBlocks.
    destruct (contextFiles files) as [|f rest]; [reflexivity|].
    simpl. rewrite join_cons, List.map_map. reflexivity.
  - intros f. rewrite fileBlock_header. unfold blockHeader, nl.
    rewrite <- !app_assoc. reflexivity.
  - reflexivity.
  - intros front f g Hsel. unfold filesContext, fileBlocks.
    rewrite Hsel, !List.map_app. simpl. apply join_snoc.
  - intros f Hsel. unfold filesContext, fileBlocks. rewrite Hsel.
    reflexivity.
  - intros ->. reflexivity.
  - intros Hnone. unfold filesContext, fileBlocks.
    rewrite contextFiles_take, textFiles_none by exact Hnone.
    reflexivity.
Qed.

(** C7, as amended.  The eligible entries split into the forwarded
    ones and the dropped ones, and the number of dropped ones is the
    eligible count minus 30, floored at 0. *)
Theorem dropped_entries (files : list ZipFile) :
  textFiles files = contextFiles files ++ drop 30 (textFiles files)
  /\ length (drop 30 (textFiles files)) = spec_droppedCount files
  /\ Z.of_nat (spec_droppedCount files)
     = Z.max 0 (Z.of_nat (length (textFiles files)) - 30).
Proof.
  split; [|split].
  - rewrite contextFiles_take. symmetry. apply take_drop.
  - rewrite length_drop. reflexivity.
  - unfold spec_droppedCount. lia.
Qed.
End ContextSelectorClaims.

(** The filter on a few names: the case of the extension does not
    matter, a name without extension is dropped, and so is a directory
    whatever its name. *)
Lemma eligible_examples :
  @isLikelyText modelHost (lit "README.MD") = true
  /\ @isLikelyText modelHost (lit "src/App.tsx") = true
  /\ @isLikelyText modelHost (lit "Makefile") = false
  /\ @isLikelyText modelHost (lit "logo.png") = false
  /\ @eligible modelHost (mkZipFile (lit "lib.js") (lit "lib.js") [] true)
     = false.
Proof. repeat split; vm_compute; reflexivity. Qed.


(** A content of 6000 characters is cut to its first 5000. *)
Lemma emitted_content_prefix_witness :
  Z.of_nat (length (content longFile)) = 6000%Z
  /\ @fileBlocks modelHost [longFile]
     = [blockHeader longFile ++ List.repeat 120%N (Z.to_nat 5000)].
Proof.
  assert (Hlen : Z.of_nat (length (content longFile)) = 6000%Z).
  { vm_compute. reflexivity. }
  split; [exact Hlen|].
  pose proof (@emitted_content_prefix modelHost [longFile]) as HF.
  assert (Hsel : @contextFiles modelHost [longFile] = [longFile]).
  { vm_compute. reflexivity. }
  unfold fileBlocks in *. rewrite Hsel in *.
  change (List.map fileBlock [longFile]) with [fileBlock longFile] in *.
  apply Forall2_cons_1 in HF as [(emitted & Hb & _ & _ & Hex) _].
  destruct (Hex Hlen) as [He _].
  rewrite Hb, He. vm_compute. reflexivity.
Defined.

(** Three files give three blocks with two separators between them, and
    a list without eligible entries gives the empty string. *)
Lemma serialization_witness :
  @contextFiles modelHost (take 3 fortyFiles)
    = [tsFile 1] ++ [tsFile 2; tsFile 3]
  /\ @filesContext modelHost (take 3 fortyFiles)
     = join (List.map fileBlock ([tsFile 1] ++ [tsFile 2])) separator
         ++ separator ++ fileBlock (tsFile 3)
  /\ Forall (fun f => @eligible modelHost f = false)
       [mkZipFile (lit "src/") (lit "src/") [] true;
        mkZipFile (lit "Makefile") (lit "Makefile") (lit "all:") false]
  /\ @filesContext modelHost
       [mkZipFile (lit "src/") (lit "src/") [] true;
        mkZipFile (lit "Makefile") (lit "Makefile") (lit "all:") false]
     = [].
Proof.
  assert (Hsel : @contextFiles modelHost (take 3 fortyFiles)
                 = [tsFile 1] ++ [tsFile 2; tsFile 3]).
  { vm_compute. reflexivity. }
  split; [exact Hsel|].
  destruct (@serialization modelHost (take 3 fortyFiles))
    as (_ & _ & _ & Hlast & _).
  split; [exact (Hlast _ _ _ Hsel)|].
  assert (Hnone : Forall (fun f => @eligible modelHost f = false)
            [mkZipFile (lit "src/") (lit "src/") [] true;
             mkZipFile (lit "Makefile") (lit "Makefile") (lit "all:") false]).
  { apply (bool_decide_unpack _). vm_compute. exact I. }
  split; [exact Hnone|].
  destruct (@serialization modelHost
              [mkZipFile (lit "src/") (lit "src/") [] true;
               mkZipFile (lit "Makefile") (lit "Makefile") (lit "all:") false])
    as (_ & _ & _ & _ & _ & _ & Hempty).
  exact (Hempty Hnone).
Defined.

(** C7, the claim as stated.  The output of the selector is the
    serialized string, and the number of dropped entries cannot be read
    off it: thirty eligible files and forty eligible files whose first
    thirty are the same give the same string, while 0 and 10 entries
    were dropped. *)
Lemma dropped_count_not_in_output :
  @filesContext modelHost (take 30 fortyFiles)
    = @filesContext modelHost fortyFiles
  /\ @spec_droppedCount modelHost (take 30 fortyFiles) = 0%nat
  /\ @spec_droppedCount modelHost fortyFiles = 10%nat
  /\ ~ (exists count : jsstring -> nat,
          forall files,
            count (@filesContext modelHost files)
            = @spec_droppedCount modelHost files).
Proof.
  assert (Hsame : @filesContext modelHost (take 30 fortyFiles)
                  = @filesContext modelHost fortyFiles).
  { vm_compute. reflexivity. }
  assert (H0 : @spec_droppedCount modelHost (take 30 fortyFiles) = 0%nat).
  { vm_compute. reflexivity. }
  assert (H10 : @spec_droppedCount modelHost fortyFiles = 10%nat).
  { vm_compute. reflexivity. }
  split; [exact Hsame|]. split; [exact H0|]. split; [exact H10|].
  intros (count & Hcount).
  pose proof (Hcount (take 30 fortyFiles)) as Ha.
  pose proof (Hcount fortyFiles) as Hb.
  rewrite Hsame, Hb, H10 in Ha. rewrite H0 in Ha. discriminate.
Qed.

(* ===================================================================== *)
(** * The analysis client *)
(* ===================================================================== *)

Section AnalysisClientFacts.
Context `{Host}.

(** Whatever the service answers, one request leaves the program, and
    it carries the prompt built from the selected files. *)
Lemma analyzeCodebase_sent (files : list ZipFile) (w : world) :
  sent (snd (analyzeCodebase files w))
  = sent w ++ [analysisRequest (filesContext files)].
Proof.
  unfold analyzeCodebase.
  destruct (service w _) as [cause | text |]; [reflexivity | | reflexivity].
  destruct (JSON_parse _); reflexivity.
Qed.

(** The outcome is read off the answer to that request. *)
Lemma analyzeCodebase_outcome (files : list ZipFile) (w : world) :
  fst (analyzeCodebase files w)
  = match service w (analysisRequest (filesContext files)) with
    | Rejects cause => Rejected (UpstreamError cause)
    | NeverSettles => Pending
    | Resolves text =>
        match JSON_parse (textToString text) with
        | Some v => Fulfilled v
        | None => Rejected SyntaxError
        end
    end.
Proof.
  unfold analyzeCodebase.
  destruct (service w _) as [cause | text |]; [reflexivity | | reflexivity].
  destruct (JSON_parse _); reflexivity.
Qed.

(** C5, as amended.  When the body is not JSON text the operation
    fails with the parser's error, the specification's
    [ResponseContractViolation], and produces no result; when it is,
    the result is the parsed value itself, every member as the body
    has it and none added. *)
Theorem unparsable_body_fails (files : list ZipFile) (w : world)
  (text : option jsstring) :
  service w (analysisRequest (filesContext files)) = Resolves text ->
  (JSON_parse (textToString text) = None ->
     fst (analyzeCodebase files w) = Rejected SyntaxError
     /\ errorKind SyntaxError = ResponseContractViolation
     /\ forall v, fst (analyzeCodebase files w) <> Fulfilled v)
  /\ (forall v, JSON_parse (textToString text) = Some v ->
        fst (analyzeCodebase files w) = Fulfilled v)
  /\ (forall result, fst (analyzeCodebase files w) = Fulfilled result ->
        JSON_parse (textToString text) = Some result).
Proof.
  intros Hsvc. rewrite analyzeCodebase_outcome, Hsvc.
  split; [|split].
  - intros ->. repeat split. discriminate.
  - intros v ->. reflexivity.
  - intros result. destruct (JSON_parse _); [|discriminate].
    intros [= ->]. reflexivity.
Qed.

(** C6, as amended.  When the awaited call is rejected, be it for a
    network error, a status that is not a success, a rate limit, a
    refused credential or a timeout that the transport reports, the
    operation is rejected with that very error, passed on as it is, and
    returns no result; the one request has been sent.  No timeout is
    set by the source: when the call never settles, the request has
    been sent all the same and the operation neither fails nor
    returns. *)
Theorem upstream_rejection_propagates (files : list ZipFile) (w : world) :
  (forall cause : jsstring,
     service w (analysisRequest (filesContext files)) = Rejects cause ->
     fst (analyzeCodebase files w) = Rejected (UpstreamError cause)
     /\ (forall v, fst (analyzeCodebase files w) <> Fulfilled v)
     /\ sent (snd (analyzeCodebase files w))
        = sent w ++ [analysisRequest (filesContext files)])
  /\ (service w (analysisRequest (filesContext files)) = NeverSettles ->
      fst (analyzeCodebase files w) = Pending
      /\ (forall e, fst (analyzeCodebase files w) <> Rejected e)
      /\ (forall v, fst (analyzeCodebase files w) <> Fulfilled v)
      /\ sent (snd (analyzeCodebase files w))
         = sent w ++ [analysisRequest (filesContext files)]).
Proof.
  split.
  - intros cause Hsvc.
    rewrite analyzeCodebase_sent, analyzeCodebase_outcome, Hsvc.
    repeat split. discriminate.
  - intros Hsvc.
    rewrite analyzeCodebase_sent, analyzeCodebase_outcome, Hsvc.
    repeat split; discriminate.
Qed.

(** The source sets no timeout of its own: while the awaited call does
    not settle, neither does the operation. *)
Lemma unsettled_call_pending (files : list ZipFile) (w : world) :
  service w (analysisRequest (filesContext files)) = NeverSettles ->
  fst (analyzeCodebase files w) = Pending.
Proof. intros Hsvc. rewrite analyzeCodebase_outcome, Hsvc. reflexivity. Qed.

(** C10. With no entry, or none eligible, nothing fails before the
    service is contacted: the context is the empty string, the request
    carries the prompt built around it, exactly that one request is
    added to those sent, and the outcome is whatever the answer to it
    makes it. *)
Theorem empty_context_still_requested (files : list ZipFile) (w : world) :
  files = [] \/ Forall (fun f => eligible f = false) files ->
  filesContext files = []
  /\ sent (snd (analyzeCodebase files w)) = sent w ++ [analysisRequest []]
  /\ contents (analysisRequest []) = prompt []
  /\ fst (analyzeCodebase files w)
     = match service w (analysisRequest []) with
       | Rejects cause => Rejected (UpstreamError cause)
       | NeverSettles => Pending
       | Resolves text =>
           match JSON_parse (textToString text) with
           | Some v => Fulfilled v
           | None => Rejected SyntaxError
           end
       end.
Proof.
  intros Hfiles.
  assert (Hctx : filesContext files = []).
  { destruct Hfiles as [-> | Hnone]; [reflexivity|].
    unfold filesContext, fileBlocks.
    rewrite contextFiles_take, textFiles_none by exact Hnone.
    reflexivity. }
  rewrite analyzeCodebase_sent, analyzeCodebase_outcome, Hctx.
  repeat split.
Qed.
End AnalysisClientFacts.

(** C5, the claim as stated.  A body that is JSON text but lacks
    [dependencies] does not conform to the schema, and yet the operation
    is fulfilled with the parsed object, which has no such member; it is
    not rejected. *)
Lemma missing_field_is_returned :
  let body := bodyWithoutDependencies in
  let result :=
    JObject [(lit "summary", JString (lit "s"));
             (lit "entryPoint", JString (lit "main.ts"));
             (lit "executionSimulation", JString (lit "x"));
             (lit "suggestions", JArray [])] in
  @JSON_parse modelHost body = Some result
  /\ conforms analysisSchema result = false
  /\ fst (@analyzeCodebase modelHost fortyFiles (answering body))
     = Fulfilled result
  /\ ~ (exists e, fst (@analyzeCodebase modelHost fortyFiles (answering body))
                  = Rejected e).
Proof.
  cbv zeta.
  assert (Hout : fst (@analyzeCodebase modelHost fortyFiles
                        (answering bodyWithoutDependencies))
                 = Fulfilled
                     (JObject [(lit "summary", JString (lit "s"));
                               (lit "entryPoint", JString (lit "main.ts"));
                               (lit "executionSimulation", JString (lit "x"));
                               (lit "suggestions", JArray [])])).
  { vm_compute. reflexivity. }
  split; [vm_compute; reflexivity|]. split; [vm_compute; reflexivity|].
  split; [exact Hout|].
  intros (e & He). rewrite Hout in He. discriminate.
Qed.

(** An answer that is not JSON text at all, and a complete one. *)
Lemma unparsable_body_fails_witness :
  service (answering (lit "Sorry, I cannot help with that."))
          (analysisRequest (@filesContext modelHost fortyFiles))
    = Resolves (Some (lit "Sorry, I cannot help with that."))
  /\ @JSON_parse modelHost (lit "Sorry, I cannot help with that.") = None
  /\ fst (@analyzeCodebase modelHost fortyFiles
            (answering (lit "Sorry, I cannot help with that.")))
     = Rejected SyntaxError.
Proof.
  assert (Hparse : @JSON_parse modelHost
                     (lit "Sorry, I cannot help with that.") = None).
  { vm_compute. reflexivity. }
  split; [reflexivity|]. split; [exact Hparse|].
  destruct (@unparsable_body_fails modelHost fortyFiles
              (answering (lit "Sorry, I cannot help with that."))
              (Some (lit "Sorry, I cannot help with that.")) eq_refl)
    as (Hfail & _).
  exact (proj1 (Hfail Hparse)).
Defined.

(** C6, the claim as stated.  A call that times out without the
    transport telling, as nothing in the source sets a timeout: the
    request has been sent, the call never settles, and the operation
    does not fail, with whatever error; it stays pending. *)
Lemma hung_call_never_fails :
  service hanging (analysisRequest (@filesContext modelHost fortyFiles))
    = NeverSettles
  /\ sent (snd (@analyzeCodebase modelHost fortyFiles hanging))
     = [analysisRequest (@filesContext modelHost fortyFiles)]
  /\ fst (@analyzeCodebase modelHost fortyFiles hanging) = Pending
  /\ ~ (exists e, fst (@analyzeCodebase modelHost fortyFiles hanging)
                  = Rejected e).
Proof.
  split; [reflexivity|]. split; [reflexivity|]. split; [reflexivity|].
  intros (e & He). discriminate He.
Qed.

(** A call that the transport rejects when its deadline has passed, and
    a call that hangs. *)
Lemma upstream_rejection_propagates_witness :
  service (failing (lit "deadline exceeded"))
          (analysisRequest (@filesContext modelHost fortyFiles))
    = Rejects (lit "deadline exceeded")
  /\ fst (@analyzeCodebase modelHost fortyFiles
            (failing (lit "deadline exceeded")))
     = Rejected (UpstreamError (lit "deadline exceeded"))
  /\ service hanging (analysisRequest (@filesContext modelHost fortyFiles))
     = NeverSettles
  /\ fst (@analyzeCodebase modelHost fortyFiles hanging) = Pending.
Proof.
  split; [reflexivity|]. split.
  - exact (proj1 (proj1 (@upstream_rejection_propagates modelHost fortyFiles
                           (failing (lit "deadline exceeded")))
                        (lit "deadline exceeded") eq_refl)).
  - split; [reflexivity|].
    exact (proj1 (proj2 (@upstream_rejection_propagates modelHost fortyFiles
                           hanging) eq_refl)).
Defined.

(** A directory and a file without extension: the request is sent all
    the same, and a complete answer is returned. *)
Lemma empty_context_still_requested_witness :
  let files := [mkZipFile (lit "src/") (lit "src/") [] true;
                mkZipFile (lit "Makefile") (lit "Makefile") (lit "all:") false] in
  Forall (fun f => @eligible modelHost f = false) files
  /\ sent (snd (@analyzeCodebase modelHost files (answering completeBody)))
     = [analysisRequest []]
  /\ sent (snd (@analyzeCodebase modelHost [] (answering completeBody)))
     = [analysisRequest []].
Proof.
  cbv zeta.
  assert (Hnone : Forall (fun f => @eligible modelHost f = false)
            [mkZipFile (lit "src/") (lit "src/") [] true;
             mkZipFile (lit "Makefile") (lit "Makefile") (lit "all:") false]).
  { apply (bool_decide_unpack _). vm_compute. exact I. }
  split; [exact Hnone|]. split.
  - exact (proj1 (proj2 (@empty_context_still_requested modelHost _
                           (answering completeBody) (or_intror Hnone)))).
  - exact (proj1 (proj2 (@empty_context_still_requested modelHost []
                           (answering completeBody) (or_introl eq_refl)))).
Defined.

(* ===================================================================== *)
(** * The order of the uploaded files *)
(* ===================================================================== *)

(** The invariant of the data model: a directory entry has no content. *)
Lemma extractEntry_directory (p : jsstring) (e : zipEntry) :
  isDirectory (extractEntry p e) = dir e
  /\ (isDirectory (extractEntry p e) = true -> content (extractEntry p e) = []).
Proof. unfold extractEntry. destruct (dir e); simpl; split; congruence. Qed.

Lemma insertBy_perm {A} (cmp : A -> A -> Z) (x : A) (l : list A) :
  insertBy cmp x l ≡ₚ x :: l.
Proof.
  induction l as [|y l IH]; simpl; [reflexivity|].
  destruct (cmp x y <=? 0)%Z; [reflexivity|].
  rewrite IH. apply Permutation_swap.
Qed.

Lemma sort_perm {A} (cmp : A -> A -> Z) (l : list A) : sort cmp l ≡ₚ l.
Proof.
  induction l as [|x l IH]; simpl; [reflexivity|].
  rewrite insertBy_perm, IH. reflexivity.
Qed.

Lemma insertBy_ordered {A} (cmp : A -> A -> Z) (x : A) (l : list A) :
  (forall y, y ∈ l -> (cmp x y <= 0)%Z \/ (cmp y x <= 0)%Z) ->
  orderedBy cmp l -> orderedBy cmp (insertBy cmp x l).
Proof.
  intros Htotal Hord. induction Hord as [|y|y z l Hyz Hord IH]; simpl.
  - constructor.
  - destruct (Z.leb_spec (cmp x y) 0) as [Hle | Hgt].
    + constructor; [exact Hle | constructor].
    + constructor; [|constructor].
      destruct (Htotal y) as [Hxy | Hyx]; [left | lia | exact Hyx].
  - destruct (Z.leb_spec (cmp x y) 0) as [Hle | Hgt].
    + constructor; [exact Hle|]. constructor; assumption.
    + assert (IH' : orderedBy cmp (insertBy cmp x (z :: l))).
      { apply IH. intros w Hw. apply Htotal. right. exact Hw. }
      simpl in IH' |- *.
      destruct (Z.leb_spec (cmp x z) 0) as [Hle' | Hgt'].
      * constructor; [|exact IH'].
        destruct (Htotal y) as [Hxy | Hyx]; [left | lia | exact Hyx].
      * constructor; [exact Hyz | exact IH'].
Qed.

Lemma sort_ordered {A} (cmp : A -> A -> Z) (l : list A) :
  (forall a b, a ∈ l -> b ∈ l -> (cmp a b <= 0)%Z \/ (cmp b a <= 0)%Z) ->
  orderedBy cmp (sort cmp l).
Proof.
  induction l as [|x l IH]; intros Htotal; simpl; [constructor|].
  apply insertBy_ordered.
  - intros y Hy. rewrite sort_perm in Hy.
    apply Htotal; [left | right; exact Hy].
  - apply IH. intros a b Ha Hb. apply Htotal; right; assumption.
Qed.

(** With a transitive comparator the head of an ordered list comes
    before or with every later element. *)
Lemma orderedBy_head {A} (cmp : A -> A -> Z) (a : A) (l : list A) :
  (forall x y z, x ∈ a :: l -> y ∈ a :: l -> z ∈ a :: l ->
     (cmp x y <= 0)%Z -> (cmp y z <= 0)%Z -> (cmp x z <= 0)%Z) ->
  orderedBy cmp (a :: l) -> Forall (fun b => (cmp a b <= 0)%Z) l.
Proof.
  revert a. induction l as [|y l IH]; intros a Htrans Hord; [constructor|].
  inversion Hord as [| |? ? ? Hay Hrest]; subst.
  constructor; [exact Hay|].
  assert (Hy : Forall (fun b => (cmp y b <= 0)%Z) l).
  { apply IH; [|exact Hrest].
    intros x u z Hx Hu Hz. apply Htrans; right; assumption. }
  rewrite List.Forall_forall in Hy |- *. intros b Hb.
  apply (Htrans a y b); [left | right; left | | exact Hay |].
  - right. right. apply list_elem_of_In. exact Hb.
  - apply Hy. exact Hb.
Qed.

Lemma orderedBy_tail {A} (cmp : A -> A -> Z) (a : A) (l : list A) :
  orderedBy cmp (a :: l) -> orderedBy cmp l.
Proof. inversion 1; subst; [constructor | assumption]. Qed.

Lemma orderedBy_pairwise {A} (cmp : A -> A -> Z) (l : list A) :
  (forall x y z, x ∈ l -> y ∈ l -> z ∈ l ->
     (cmp x y <= 0)%Z -> (cmp y z <= 0)%Z -> (cmp x z <= 0)%Z) ->
  orderedBy cmp l ->
  forall (i j : nat) (a b : A),
    (i < j)%nat -> l !! i = Some a -> l !! j = Some b -> (cmp a b <= 0)%Z.
Proof.
  induction l as [|x l IH]; intros Htrans Hord i j a b Hij Hi Hj.
  - discriminate.
  - destruct j as [|j]; [lia|]. simpl in Hj. destruct i as [|i].
    + simpl in Hi. injection Hi as ->.
      pose proof (orderedBy_head cmp a l Htrans Hord) as Hall.
      rewrite List.Forall_forall in Hall. apply Hall.
      apply list_elem_of_In. eapply list_elem_of_lookup_2. exact Hj.
    + simpl in Hi. apply (IH) with (i := i) (j := j); auto with lia.
      * intros u v w Hu Hv Hw. apply Htrans; right; assumption.
      * eapply orderedBy_tail. exact Hord.
Qed.

Section ExtractionClaims.
Context `{Host}.

(** C8, as amended.  The list given to [setFiles] holds the extracted
    entries, ordered ascending by [localeCompare] on their paths: when
    [localeCompare] is a consistent comparator on these paths, every
    entry comes before or with every later one, consecutive ones in
    particular. *)
Theorem upload_order (extractedFiles : list ZipFile) :
  consistentOn comparePaths extractedFiles ->
  uploadedFiles extractedFiles ≡ₚ extractedFiles
  /\ (forall (i : nat) (a b : ZipFile),
        uploadedFiles extractedFiles !! i = Some a ->
        uploadedFiles extractedFiles !! S i = Some b ->
        (localeCompare (path a) (path b) <= 0)%Z)
  /\ (forall (i j : nat) (a b : ZipFile),
        (i < j)%nat ->
        uploadedFiles extractedFiles !! i = Some a ->
        uploadedFiles extractedFiles !! j = Some b ->
        (localeCompare (path a) (path b) <= 0)%Z).
Proof.
  intros [Htotal Htrans]. unfold uploadedFiles.
  assert (Hpair : forall (i j : nat) (a b : ZipFile),
            (i < j)%nat ->
            sort comparePaths extractedFiles !! i = Some a ->
            sort comparePaths extractedFiles !! j = Some b ->
            (comparePaths a b <= 0)%Z).
  { apply orderedBy_pairwise.
    - intros x y z Hx Hy Hz. rewrite sort_perm in Hx, Hy, Hz.
      apply Htrans; assumption.
    - apply sort_ordered. exact Htotal. }
  split; [apply sort_perm|]. split.
  - intros i a b Hi Hj. apply (Hpair i (S i)); auto with lia.
  - exact Hpair.
Qed.
End ExtractionClaims.

(** C8, the claim as stated.  [a.ts] is placed before [B.ts], as
    [localeCompare] orders them, whereas in code-unit order [B] (0x42)
    comes before [a] (0x61). *)
Lemma upload_order_not_code_unit :
  @uploadedFiles modelHost [upperB; lowerA] = [lowerA; upperB]
  /\ @localeCompare modelHost (path lowerA) (path upperB) = (-1)%Z
  /\ codeUnitLe (path lowerA) (path upperB) = false
  /\ codeUnitSorted (@uploadedFiles modelHost [upperB; lowerA]) = false.
Proof. repeat split; vm_compute; reflexivity. Qed.

(** Three files, pushed in an order that is not the sorted one. *)
Lemma upload_order_witness :
  consistentOn (@comparePaths modelHost) [upperB; lowerA; tsFile 7]
  /\ @uploadedFiles modelHost [upperB; lowerA; tsFile 7]
     ≡ₚ [upperB; lowerA; tsFile 7]
  /\ @uploadedFiles modelHost [upperB; lowerA; tsFile 7]
     = [lowerA; upperB; tsFile 7].
Proof.
  assert (Hc : consistentOn (@comparePaths modelHost)
                 [upperB; lowerA; tsFile 7]).
  { split.
    - intros a b Ha Hb. rewrite !elem_of_cons, elem_of_nil in Ha, Hb.
      destruct Ha as [-> | [-> | [-> | []]]];
        destruct Hb as [-> | [-> | [-> | []]]];
        vm_compute; intuition discriminate.
    - intros a b c Ha Hb Hc.
      rewrite !elem_of_cons, elem_of_nil in Ha, Hb, Hc.
      destruct Ha as [-> | [-> | [-> | []]]];
        destruct Hb as [-> | [-> | [-> | []]]];
        destruct Hc as [-> | [-> | [-> | []]]];
        vm_compute; intuition discriminate. }
  split; [exact Hc|].
  split; [exact (proj1 (@upload_order modelHost _ Hc))|].
  vm_compute. reflexivity.
Defined.

(* ===================================================================== *)
(** * The selector neither throws nor changes anything *)
(* ===================================================================== *)

Section DynamicFacts.
Context `{Host}.

Lemma readProp_holds (st : Dynamic.state) (ref : nat) (o : Dynamic.object)
  (k : string) :
  Dynamic.heap st !! ref = Some o ->
  Dynamic.readProp ref k st = (inl (Dynamic.getProp o (lit k)), st).
Proof. intros Ho. unfold Dynamic.readProp. rewrite Ho. reflexivity. Qed.

Lemma dynamic_eligible (st : Dynamic.state) (ref : nat) (f : ZipFile) :
  Dynamic.holds st ref f ->
  Dynamic.eligible ref st = (inl (eligible f), st).
Proof.
  intros (o & Ho & Hname & _ & _ & Hdir).
  unfold Dynamic.eligible, Dynamic.bind, eligible.
  rewrite (readProp_holds st ref o) by exact Ho. rewrite Hdir.
  cbn [Dynamic.ToBoolean].
  destruct (isDirectory f); [reflexivity|]. cbn [negb andb].
  rewrite (readProp_holds st ref o) by exact Ho. rewrite Hname.
  reflexivity.
Qed.

Lemma dynamic_filter (st : Dynamic.state) (refs : list nat)
  (files : list ZipFile) :
  Forall2 (Dynamic.holds st) refs files ->
  exists kept,
    Dynamic.filter refs st = (inl kept, st)
    /\ Forall2 (Dynamic.holds st) kept (textFiles files).
Proof.
  induction 1 as [|ref f refs files Hf _ (kept & Hrun & Hkept)].
  - exists []. split; [reflexivity | constructor].
  - exists (if eligible f then ref :: kept else kept).
    cbn [Dynamic.filter]. unfold Dynamic.bind at 1.
    rewrite (dynamic_eligible st ref f Hf).
    unfold Dynamic.bind at 1. rewrite Hrun.
    split; [reflexivity|].
    unfold textFiles. cbn [List.filter].
    destruct (eligible f); [constructor|]; assumption.
Qed.

Lemma dynamic_fileBlock (st : Dynamic.state) (ref : nat) (f : ZipFile) :
  Dynamic.holds st ref f ->
  Dynamic.fileBlock ref st = (inl (fileBlock f), st).
Proof.
  intros (o & Ho & _ & Hpath & Hcontent & _).
  unfold Dynamic.fileBlock, Dynamic.bind.
  rewrite !(readProp_holds st ref o) by exact Ho.
  rewrite Hpath, Hcontent. reflexivity.
Qed.

Lemma dynamic_map (st : Dynamic.state) (refs : list nat)
  (files : list ZipFile) :
  Forall2 (Dynamic.holds st) refs files ->
  Dynamic.map refs st = (inl (List.map fileBlock files), st).
Proof.
  induction 1 as [|ref f refs files Hf _ IH]; [reflexivity|].
  cbn [Dynamic.map]. unfold Dynamic.bind at 1.
  rewrite (dynamic_fileBlock st ref f Hf).
  unfold Dynamic.bind at 1. rewrite IH. reflexivity.
Qed.

(** C9. On an array whose elements are objects with the four
    properties of an entry, each of its type, the selector returns
    normally, with the string of [filesContext], and leaves the state
    as it found it: no object of the heap is changed and no request is
    sent.  This holds for every such array, the empty one and entries
    with empty content or path included, and for arrays in which one
    object occurs several times. *)
Theorem selector_total_pure (st : Dynamic.state) (refs : list nat)
  (files : list ZipFile) :
  Forall2 (Dynamic.holds st) refs files ->
  Dynamic.filesContext refs st = (inl (filesContext files), st).
Proof.
  intros Hwf. unfold Dynamic.filesContext.
  destruct (dynamic_filter st refs files Hwf) as (kept & Hrun & Hkept).
  unfold Dynamic.bind at 1. rewrite Hrun.
  unfold Dynamic.bind at 1.
  rewrite (dynamic_map st (slice kept 0 30) (contextFiles files)).
  - reflexivity.
  - unfold contextFiles. rewrite !slice_0 by lia.
    apply Forall2_take. exact Hkept.
Qed.
End DynamicFacts.

(** An array that names the same object twice, next to a directory and
    an entry with empty path and content; and the empty array. *)
Lemma selector_total_pure_witness :
  Forall2 (Dynamic.holds sampleState) [0; 1; 2; 0]%nat
    [tsFile 1; mkZipFile (lit "src/") (lit "src/") [] true;
     mkZipFile (lit ".md") [] [] false; tsFile 1]
  /\ @Dynamic.filesContext modelHost [0; 1; 2; 0]%nat sampleState
     = (inl (@filesContext modelHost
               [tsFile 1; mkZipFile (lit "src/") (lit "src/") [] true;
                mkZipFile (lit ".md") [] [] false; tsFile 1]),
        sampleState)
  /\ @Dynamic.filesContext modelHost [] sampleState = (inl [], sampleState).
Proof.
  assert (Hwf : Forall2 (Dynamic.holds sampleState) [0; 1; 2; 0]%nat
            [tsFile 1; mkZipFile (lit "src/") (lit "src/") [] true;
             mkZipFile (lit ".md") [] [] false; tsFile 1]).
  { repeat constructor; eexists; (split; [reflexivity|]);
      repeat split; vm_compute; reflexivity. }
  split; [exact Hwf|]. split.
  - exact (@selector_total_pure modelHost sampleState _ _ Hwf).
  - exact (@selector_total_pure modelHost sampleState [] []
             (List.Forall2_nil _)).
Defined.

(** The hypothesis on the objects is needed: an element whose [content]
    is missing makes [substring] throw. *)
Lemma missing_content_throws :
  @Dynamic.filesContext modelHost [0%nat]
    {| Dynamic.heap := [[(lit "name", Dynamic.VString (lit "a.ts"));
                         (lit "path", Dynamic.VString (lit "a.ts"))]];
       Dynamic.outbound := [] |}
  = (inr Dynamic.TypeError,
     {| Dynamic.heap := [[(lit "name", Dynamic.VString (lit "a.ts"));
                          (lit "path", Dynamic.VString (lit "a.ts"))]];
        Dynamic.outbound := [] |}).
Proof. vm_compute. reflexivity. Qed.


(* ===================================================================== *)
(** * Further properties of the context selector *)
(* ===================================================================== *)

Lemma length_concat_sep (sep : jsstring) (blocks : list jsstring) (B : Z) :
  Forall (fun b => (Z.of_nat (length b) <= B)%Z) blocks ->
  (Z.of_nat (length (concat (List.map (fun b => sep ++ b) blocks)))
   <= Z.of_nat (length blocks) * (Z.of_nat (length sep) + B))%Z.
Proof.
  induction 1 as [|b blocks Hb _ IH]; simpl; [lia|].
  rewrite !length_app. lia.
Qed.

Lemma length_join_bound (sep : jsstring) (blocks : list jsstring) (B : Z) :
  blocks <> [] ->
  Forall (fun b => (Z.of_nat (length b) <= B)%Z) blocks ->
  (Z.of_nat (length (join blocks sep)) + Z.of_nat (length sep)
   <= Z.of_nat (length blocks) * (Z.of_nat (length sep) + B))%Z.
Proof.
  intros Hne Hall. destruct Hall as [|b blocks Hb Hall]; [contradiction|].
  rewrite join_cons, length_app.
  pose proof (length_concat_sep sep blocks B Hall) as Hrest.
  simpl length. lia.
Qed.

Lemma length_blockHeader (f : ZipFile) :
  length (blockHeader f) = (16 + length (path f))%nat.
Proof.
  unfold blockHeader. rewrite !length_app. simpl. lia.
Qed.

Lemma length_prompt (ctx : jsstring) :
  length (prompt ctx) = (440 + length ctx)%nat.
Proof.
  unfold prompt. rewrite !length_app. simpl. lia.
Qed.

Section ContextSelectorMore.
Context `{Host}.

Lemma textFiles_app (a b : list ZipFile) :
  textFiles (a ++ b) = textFiles a ++ textFiles b.
Proof. apply List.filter_app. Qed.

Lemma textFiles_idem (files : list ZipFile) :
  textFiles (textFiles files) = textFiles files.
Proof.
  apply textFiles_all. apply List.Forall_forall. intros f Hin.
  apply filter_In in Hin. tauto.
Qed.

(** X1. Selecting is idempotent: the selection of the selected entries
    is the selection itself, so the context built from the selected
    entries alone, or from the eligible ones alone, is the context built
    from the whole list. *)
Theorem selection_idempotent (files : list ZipFile) :
  contextFiles (contextFiles files) = contextFiles files
  /\ filesContext (contextFiles files) = filesContext files
  /\ filesContext (textFiles files) = filesContext files.
Proof.
  assert (Hsel : contextFiles (contextFiles files) = contextFiles files).
  { rewrite (contextFiles_take (contextFiles files)).
    rewrite textFiles_all by apply contextFiles_eligible.
    rewrite contextFiles_take. apply take_idemp. }
  split; [exact Hsel|]. split.
  - unfold filesContext, fileBlocks. rewrite Hsel. reflexivity.
  - unfold filesContext, fileBlocks.
    rewrite (contextFiles_take (textFiles files)), textFiles_idem.
    rewrite <- contextFiles_take. reflexivity.
Qed.

(** X2. An entry that is a directory, or whose name has none of the
    extensions, has no effect on the context, wherever it stands. *)
Theorem ineligible_entry_ignored (front back : list ZipFile) (f : ZipFile) :
  eligible f = false ->
  filesContext (front ++ f :: back) = filesContext (front ++ back).
Proof.
  intros Hf. unfold filesContext, fileBlocks.
  rewrite !contextFiles_take, !textFiles_app.
  unfold textFiles at 2. cbn [List.filter]. rewrite Hf. reflexivity.
Qed.

(** X3. Once thirty eligible entries have been seen, whatever follows
    them in the list has no effect on the context. *)
Theorem entries_after_cap_ignored (front back : list ZipFile) :
  (30 <= length (textFiles front))%nat ->
  filesContext (front ++ back) = filesContext front.
Proof.
  intros Hcap. unfold filesContext, fileBlocks.
  rewrite !contextFiles_take, textFiles_app.
  rewrite take_app_le by exact Hcap. reflexivity.
Qed.

(** X4. The request depends on the entries only through the paths of
    the selected ones and the first 5000 characters of their contents:
    two lists that agree on these lead to the same context, the same
    request and the same outcome.  Names, longer contents and entries
    that are not selected never leave the program. *)
Theorem request_depends_on_selection (a b : list ZipFile) :
  List.map (fun f => (path f, take (Z.to_nat 5000) (content f)))
           (contextFiles a)
  = List.map (fun f => (path f, take (Z.to_nat 5000) (content f)))
             (contextFiles b) ->
  filesContext a = filesContext b
  /\ forall w : world, analyzeCodebase a w = analyzeCodebase b w.
Proof.
  intros Hsame.
  assert (Hblocks : fileBlocks a = fileBlocks b).
  { unfold fileBlocks.
    assert (Hvia : forall l : list ZipFile,
              List.map fileBlock l
              = List.map (fun pc => lit "FILE: " ++ fst pc ++ nl
                                      ++ lit "CONTENT:" ++ nl ++ snd pc)
                  (List.map (fun f => (path f,
                                        take (Z.to_nat 5000) (content f)))
                            l)).
    { intros l. rewrite List.map_map. apply List.map_ext. intros f.
      unfold fileBlock. rewrite substring_0 by lia. reflexivity. }
    rewrite !Hvia, Hsame. reflexivity. }
  assert (Hctx : filesContext a = filesContext b).
  { unfold filesContext. rewrite Hblocks. reflexivity. }
  split; [exact Hctx|].
  intros w. unfold analyzeCodebase. rewrite Hctx. reflexivity.
Qed.

(** X5. The size of what is sent is bounded once the paths are: with
    every path of at most [P] code units, the context has at most
    [150683 + 30 * P] of them (thirty blocks of [16 + P + 5000] and
    twenty-nine separators of 7), and the prompt 440 more. *)
Theorem context_size_bound (files : list ZipFile) (P : nat) :
  Forall (fun f => (length (path f) <= P)%nat) files ->
  (Z.of_nat (length (filesContext files)) <= 150683 + 30 * Z.of_nat P)%Z
  /\ (Z.of_nat (length (contents (analysisRequest (filesContext files))))
      <= 151123 + 30 * Z.of_nat P)%Z.
Proof.
  intros Hpaths.
  assert (Hctx : (Z.of_nat (length (filesContext files))
                  <= 150683 + 30 * Z.of_nat P)%Z).
  { assert (Hblocks : Forall (fun b => (Z.of_nat (length b)
                                        <= 5016 + Z.of_nat P)%Z)
                        (fileBlocks files)).
    { unfold fileBlocks. apply Forall_fmap.
      rewrite contextFiles_take. apply Forall_take.
      unfold textFiles. apply List.Forall_forall. intros f Hin.
      apply filter_In in Hin. destruct Hin as [Hin _].
      rewrite List.Forall_forall in Hpaths. specialize (Hpaths f Hin).
      unfold compose. cbv beta.
      rewrite fileBlock_header, length_app, length_blockHeader.
      rewrite length_take. lia. }
    assert (Hn : (length (fileBlocks files) <= 30)%nat).
    { unfold fileBlocks. rewrite length_map, contextFiles_length. lia. }
    unfold filesContext.
    destruct (fileBlocks files) as [|b blocks] eqn:Hbs; [simpl; lia|].
    pose proof (length_join_bound separator (b :: blocks)
                  (5016 + Z.of_nat P) ltac:(discriminate) Hblocks) as Hjoin.
    change (length separator) with 7%nat in Hjoin.
    assert (Hmul : (Z.of_nat (length (b :: blocks)) * (7 + (5016 + Z.of_nat P))
                    <= 30 * (7 + (5016 + Z.of_nat P)))%Z).
    { apply Z.mul_le_mono_nonneg_r; lia. }
    change (Z.of_nat 7) with 7%Z in Hjoin. lia. }
  split; [exact Hctx|].
  cbn [contents analysisRequest]. rewrite length_prompt. lia.
Qed.

(** X6. The blocks are not escaped: a content that itself holds a
    separator and a block is indistinguishable from two entries.  For
    eligible [f] and [g], the two entries [f], [g] give the very context
    of the single entry [f] whose content is extended by the separator
    and the block of [g], as long as that content fits in 5000
    characters. *)
Theorem block_can_be_imitated (f g : ZipFile) :
  eligible f = true ->
  eligible g = true ->
  (Z.of_nat (length (content f ++ separator ++ fileBlock g)) <= 5000)%Z ->
  filesContext [f; g]
  = filesContext
      [{| name := name f; path := path f;
          content := content f ++ separator ++ fileBlock g;
          isDirectory := isDirectory f |}].
Proof.
  intros Hf Hg Hlen.
  assert (Hf' : eligible {| name := name f; path := path f;
                            content := content f ++ separator ++ fileBlock g;
                            isDirectory := isDirectory f |} = true).
  { exact Hf. }
  unfold filesContext, fileBlocks. rewrite !contextFiles_take.
  unfold textFiles. cbn [List.filter]. rewrite Hf, Hg, Hf'.
  cbn [take List.map]. rewrite join_cons_cons, !join_singleton.
  rewrite (fileBlock_header f), (fileBlock_header (mkZipFile _ _ _ _)).
  unfold blockHeader. cbn [path content].
  rewrite (take_ge (content f ++ _)) by lia.
  rewrite length_app in Hlen.
  rewrite (take_ge (content f)) by lia.
  rewrite <- !app_assoc. reflexivity.
Qed.
End ContextSelectorMore.

(** A directory between two source files. *)
Lemma ineligible_entry_ignored_witness :
  @eligible modelHost (mkZipFile (lit "src/") (lit "src/") [] true) = false
  /\ @filesContext modelHost
       ([tsFile 1] ++ mkZipFile (lit "src/") (lit "src/") [] true :: [tsFile 2])
     = @filesContext modelHost ([tsFile 1] ++ [tsFile 2]).
Proof.
  split; [vm_compute; reflexivity|].
  apply (@ineligible_entry_ignored modelHost). vm_compute. reflexivity.
Defined.

(** The last ten of the forty files. *)
Lemma entries_after_cap_ignored_witness :
  (30 <= length (@textFiles modelHost (take 30 fortyFiles)))%nat
  /\ @filesContext modelHost (take 30 fortyFiles ++ drop 30 fortyFiles)
     = @filesContext modelHost (take 30 fortyFiles).
Proof.
  assert (Hcap : (30 <= length (@textFiles modelHost (take 30 fortyFiles)))%nat).
  { vm_compute. lia. }
  split; [exact Hcap|].
  exact (@entries_after_cap_ignored modelHost _ _ Hcap).
Defined.

(** Two files that differ in their names and after their 5000th
    character. *)
Lemma request_depends_on_selection_witness :
  let other :=
    {| name := lit "renamed.md"; path := lit "docs/long.txt";
       content := List.repeat 120%N (Z.to_nat 5000) ++ lit "something else";
       isDirectory := false |} in
  List.map (fun f => (path f, take (Z.to_nat 5000) (content f)))
           (@contextFiles modelHost [longFile])
  = List.map (fun f => (path f, take (Z.to_nat 5000) (content f)))
             (@contextFiles modelHost [other])
  /\ @filesContext modelHost [longFile] = @filesContext modelHost [other]
  /\ @analyzeCodebase modelHost [longFile] (answering completeBody)
     = @analyzeCodebase modelHost [other] (answering completeBody).
Proof.
  cbv zeta.
  assert (Hsame :
    List.map (fun f => (path f, take (Z.to_nat 5000) (content f)))
             (@contextFiles modelHost [longFile])
    = List.map (fun f => (path f, take (Z.to_nat 5000) (content f)))
               (@contextFiles modelHost
                  [{| name := lit "renamed.md"; path := lit "docs/long.txt";
                      content := List.repeat 120%N (Z.to_nat 5000)
                                   ++ lit "something else";
                      isDirectory := false |}])).
  { vm_compute. reflexivity. }
  split; [exact Hsame|].
  destruct (@request_depends_on_selection modelHost _ _ Hsame) as [Hctx Hrun].
  split; [exact Hctx | exact (Hrun _)].
Defined.

(** The forty files have paths of six characters. *)
Lemma context_size_bound_witness :
  Forall (fun f => (length (path f) <= 6)%nat) fortyFiles
  /\ (Z.of_nat (length (@filesContext modelHost fortyFiles))
      <= 150683 + 30 * Z.of_nat 6)%Z.
Proof.
  assert (Hpaths : Forall (fun f => (length (path f) <= 6)%nat) fortyFiles).
  { apply (bool_decide_unpack _). vm_compute. exact I. }
  split; [exact Hpaths|].
  exact (proj1 (@context_size_bound modelHost fortyFiles 6 Hpaths)).
Defined.

(** [f01.ts] followed by [f02.ts], and [f01.ts] alone with a content
    that spells out the rest. *)
Lemma block_can_be_imitated_witness :
  @eligible modelHost (tsFile 1) = true
  /\ @eligible modelHost (tsFile 2) = true
  /\ (Z.of_nat (length (content (tsFile 1) ++ separator ++ fileBlock (tsFile 2)))
      <= 5000)%Z
  /\ @filesContext modelHost [tsFile 1; tsFile 2]
     = @filesContext modelHost
         [{| name := name (tsFile 1); path := path (tsFile 1);
             content := content (tsFile 1) ++ separator ++ fileBlock (tsFile 2);
             isDirectory := isDirectory (tsFile 1) |}].
Proof.
  assert (H1 : @eligible modelHost (tsFile 1) = true) by (vm_compute; reflexivity).
  assert (H2 : @eligible modelHost (tsFile 2) = true) by (vm_compute; reflexivity).
  assert (Hlen : (Z.of_nat (length (content (tsFile 1) ++ separator
                                      ++ fileBlock (tsFile 2))) <= 5000)%Z).
  { vm_compute. discriminate. }
  split; [exact H1|]. split; [exact H2|]. split; [exact Hlen|].
  exact (@block_can_be_imitated modelHost _ _ H1 H2 Hlen).
Defined.


(* ===================================================================== *)
(** * The handlers of the application *)
(* ===================================================================== *)

Lemma filter_length_perm {A} (p : A -> bool) (l l' : list A) :
  l ≡ₚ l' -> length (List.filter p l) = length (List.filter p l').
Proof.
  induction 1 as [|x l l' _ IH|x y l|l l' l'' _ IH1 _ IH2]; simpl.
  - reflexivity.
  - destruct (p x); simpl; rewrite IH; reflexivity.
  - destruct (p x), (p y); reflexivity.
  - rewrite IH1. exact IH2.
Qed.

Lemma extracted_file_count (entries : list (jsstring * zipEntry)) :
  length (List.filter (fun f => negb (isDirectory f))
            (List.map (fun pe => extractEntry (fst pe) (snd pe)) entries))
  = length (List.filter (fun pe => negb (dir (snd pe))) entries).
Proof.
  induction entries as [|[p e] entries IH]; [reflexivity|].
  cbn [List.map List.filter fst snd].
  rewrite (proj1 (extractEntry_directory p e)).
  destruct (dir e); simpl; rewrite IH; reflexivity.
Qed.

Lemma reportCell_nonnull (result : json) :
  result <> JNull -> App.reportCell result = Some result.
Proof. intros Hnn. destruct result; try reflexivity. congruence. Qed.

Section AppHandlers.
Context `{Host}.

(** X7. [runAnalysis] sends no request and changes nothing when there
    is no file; otherwise it sends exactly one request, the one built
    from the files of the state, however the call ends. *)
Theorem runAnalysis_requests (st : App.state) (w : world) :
  (App.files st = [] -> App.runAnalysis st w = (st, w))
  /\ (App.files st <> [] ->
      sent (snd (App.runAnalysis st w))
      = sent w ++ [analysisRequest (filesContext (App.files st))]
      /\ service (snd (App.runAnalysis st w)) = service w).
Proof.
  unfold App.runAnalysis, App.runAnalysis_begin. split.
  - intros ->. reflexivity.
  - intros Hne. destruct (App.files st) as [|f rest] eqn:Hfiles;
      [congruence|].
    pose proof (analyzeCodebase_sent (f :: rest) w) as Hsent.
    unfold analyzeCodebase in *.
    destruct (service w _) as [cause | text |]; simpl in *;
      [auto | | auto].
    destruct (JSON_parse _); simpl in *; auto.
Qed.

(** X8. When the call fails, for whichever reason, the user is shown
    the one message [analysisFailedMessage]; the report of an earlier
    run stays in the state, the files and the selection are untouched,
    and the Run button is released. *)
Theorem runAnalysis_failure (st : App.state) (w : world) (e : thrown) :
  App.files st <> [] ->
  fst (analyzeCodebase (App.files st) w) = Rejected e ->
  let st' := fst (App.runAnalysis st w) in
  App.error st' = Some App.analysisFailedMessage
  /\ App.analysis st' = App.analysis st
  /\ App.isAnalyzing st' = false
  /\ App.files st' = App.files st
  /\ App.selectedFile st' = App.selectedFile st
  /\ App.isUploading st' = App.isUploading st.
Proof.
  intros Hne Hout. unfold App.runAnalysis, App.runAnalysis_begin.
  destruct (App.files st) as [|f rest] eqn:Hfiles; [congruence|].
  destruct (analyzeCodebase (f :: rest) w) as [o w'].
  simpl in Hout. subst o. cbn. rewrite Hfiles. repeat split.
Qed.

(** X9. When the call succeeds with a value other than [null], the
    parsed value becomes the report; with [null] the report cell is
    left empty, whatever report it held.  In both cases an earlier
    error message is cleared and the Run button is released, and the
    files and the selection are untouched. *)
Theorem runAnalysis_success (st : App.state) (w : world) (result : json) :
  App.files st <> [] ->
  fst (analyzeCodebase (App.files st) w) = Fulfilled result ->
  let st' := fst (App.runAnalysis st w) in
  (result <> JNull -> App.analysis st' = Some result)
  /\ (result = JNull -> App.analysis st' = None)
  /\ App.error st' = None
  /\ App.isAnalyzing st' = false
  /\ App.files st' = App.files st
  /\ App.selectedFile st' = App.selectedFile st
  /\ App.isUploading st' = App.isUploading st.
Proof.
  intros Hne Hout. unfold App.runAnalysis, App.runAnalysis_begin.
  destruct (App.files st) as [|f rest] eqn:Hfiles; [congruence|].
  destruct (analyzeCodebase (f :: rest) w) as [o w'].
  simpl in Hout. subst o. cbn. rewrite Hfiles.
  split; [|split]; [| |repeat split].
  - intros Hnn. apply reportCell_nonnull. exact Hnn.
  - intros ->. reflexivity.
Qed.

(** X10. A picked file whose name does not end in [.zip], in lower case
    exactly, is refused: the only change to the state is the message
    [invalidZipMessage], so that the files, the selection and the report
    of the previous upload stay, and nothing is decoded.  With no file
    picked nothing changes at all. *)
Theorem upload_refuses_other_names (fileName : jsstring) (d : App.decoded)
  (st : App.state) :
  ~ lit ".zip" `suffix_of` fileName ->
  App.handleFileUpload (Some fileName) d st
    = App.setError (Some App.invalidZipMessage) st
  /\ snd (App.handleFileUpload_begin (Some fileName) st) = false
  /\ App.handleFileUpload None d st = st.
Proof.
  intros Hname.
  assert (Hends : endsWith fileName (lit ".zip") = false).
  { destruct (endsWith fileName (lit ".zip")) eqn:He; [|reflexivity].
    apply endsWith_suffix in He. contradiction. }
  unfold App.handleFileUpload, App.handleFileUpload_begin.
  rewrite Hends. repeat split.
Qed.

(** X11. After the upload of an archive that decodes, the list holds
    exactly the objects of the archive's entries, each once; the badge
    counts its entries that are not directories; every directory listed
    has an empty content; and selection, report and error message are
    cleared, whatever they were. *)
Theorem upload_success (fileName : jsstring)
  (entries : list (jsstring * zipEntry)) (extractedFiles : list ZipFile)
  (st : App.state) :
  lit ".zip" `suffix_of` fileName ->
  App.pushedFrom entries extractedFiles ->
  let st' := App.handleFileUpload (Some fileName)
               (App.Extracted extractedFiles) st in
  App.files st'
    ≡ₚ List.map (fun pe => extractEntry (fst pe) (snd pe)) entries
  /\ App.fileCount st'
     = length (List.filter (fun pe => negb (dir (snd pe))) entries)
  /\ Forall (fun f => isDirectory f = true -> content f = []) (App.files st')
  /\ App.selectedFile st' = None
  /\ App.analysis st' = None
  /\ App.error st' = None
  /\ App.isUploading st' = false
  /\ App.isAnalyzing st' = App.isAnalyzing st.
Proof.
  intros Hname Hpushed st'.
  assert (Hends : endsWith fileName (lit ".zip") = true)
    by (apply endsWith_suffix; exact Hname).
  assert (Hfiles : App.files st' = uploadedFiles extractedFiles).
  { unfold st', App.handleFileUpload, App.handleFileUpload_begin.
    rewrite Hends. reflexivity. }
  assert (Hperm : App.files st'
            ≡ₚ List.map (fun pe => extractEntry (fst pe) (snd pe)) entries).
  { rewrite Hfiles. unfold uploadedFiles. rewrite sort_perm. exact Hpushed. }
  split; [exact Hperm|]. split; [|split].
  - unfold App.fileCount.
    rewrite (filter_length_perm _ _ _ Hperm). apply extracted_file_count.
  - eapply Permutation_Forall; [symmetry; exact Hperm|].
    apply List.Forall_forall. intros f Hin.
    apply in_map_iff in Hin. destruct Hin as ([p e] & <- & _).
    apply extractEntry_directory.
  - unfold st', App.handleFileUpload, App.handleFileUpload_begin.
    rewrite Hends. repeat split.
Qed.

(** X12. When the archive does not decode, the list is left empty and
    the report and the selection cleared: the files and the report of
    the previous upload are lost, and [extractFailedMessage] is
    shown. *)
Theorem upload_failure_clears (fileName : jsstring) (st : App.state) :
  lit ".zip" `suffix_of` fileName ->
  App.handleFileUpload (Some fileName) App.DecodeFails st
  = {| App.files := []; App.selectedFile := None;
       App.isUploading := false; App.isAnalyzing := App.isAnalyzing st;
       App.analysis := None;
       App.error := Some App.extractFailedMessage |}.
Proof.
  intros Hname.
  assert (Hends : endsWith fileName (lit ".zip") = true)
    by (apply endsWith_suffix; exact Hname).
  unfold App.handleFileUpload, App.handleFileUpload_begin.
  rewrite Hends. reflexivity.
Qed.
End AppHandlers.

(* ===================================================================== *)
(** * The listed order and the order of decoding *)
(* ===================================================================== *)

(** Two ordered lists with the same elements are the same list, when no
    two different elements compare equal. *)
Lemma ordered_perm_unique {A} (cmp : A -> A -> Z) (l1 l2 : list A) :
  (forall x y z, x ∈ l1 -> y ∈ l1 -> z ∈ l1 ->
     (cmp x y <= 0)%Z -> (cmp y z <= 0)%Z -> (cmp x z <= 0)%Z) ->
  (forall x y, x ∈ l1 -> y ∈ l1 ->
     (cmp x y <= 0)%Z -> (cmp y x <= 0)%Z -> x = y) ->
  l1 ≡ₚ l2 -> orderedBy cmp l1 -> orderedBy cmp l2 -> l1 = l2.
Proof.
  revert l2. induction l1 as [|a t1 IH]; intros l2 Htrans Hanti Hperm H1 H2.
  - symmetry. apply Permutation_nil. exact Hperm.
  - destruct l2 as [|b t2].
    { symmetry in Hperm. apply Permutation_nil in Hperm. discriminate. }
    assert (Htrans2 : forall x y z, x ∈ b :: t2 -> y ∈ b :: t2 -> z ∈ b :: t2 ->
              (cmp x y <= 0)%Z -> (cmp y z <= 0)%Z -> (cmp x z <= 0)%Z).
    { intros x y z Hx Hy Hz. rewrite <- Hperm in Hx, Hy, Hz.
      apply Htrans; assumption. }
    pose proof (orderedBy_head cmp a t1 Htrans H1) as Ha.
    pose proof (orderedBy_head cmp b t2 Htrans2 H2) as Hb.
    rewrite List.Forall_forall in Ha, Hb.
    assert (Hab : a = b).
    { assert (Hbin : b ∈ a :: t1) by (rewrite Hperm; left).
      assert (Hain : a ∈ b :: t2) by (rewrite <- Hperm; left).
      apply elem_of_cons in Hbin as [-> | Hbin]; [reflexivity|].
      apply elem_of_cons in Hain as [-> | Hain]; [reflexivity|].
      apply Hanti; [left | right; exact Hbin | |].
      - apply Ha. apply list_elem_of_In. exact Hbin.
      - apply Hb. apply list_elem_of_In. exact Hain. }
    subst b. f_equal. apply IH.
    + intros x y z Hx Hy Hz. apply Htrans; right; assumption.
    + intros x y Hx Hy. apply Hanti; right; assumption.
    + eapply Permutation_cons_inv. exact Hperm.
    + eapply orderedBy_tail. exact H1.
    + eapply orderedBy_tail. exact H2.
Qed.

Section UploadOrder.
Context `{Host}.

(** X13. The listed order does not depend on the order in which the
    reads of the entries completed: when [localeCompare] is a consistent
    comparator on the paths and calls no two of the entries equal, two
    arrays holding the same pushed objects in different orders are
    sorted into the same list. *)
Theorem upload_order_independent (pushed pushed' : list ZipFile) :
  consistentOn comparePaths pushed ->
  (forall a b, a ∈ pushed -> b ∈ pushed ->
     (comparePaths a b <= 0)%Z -> (comparePaths b a <= 0)%Z -> a = b) ->
  pushed ≡ₚ pushed' ->
  uploadedFiles pushed = uploadedFiles pushed'.
Proof.
  intros [Htotal Htrans] Hanti Hperm. unfold uploadedFiles.
  apply (ordered_perm_unique comparePaths).
  - intros x y z Hx Hy Hz. rewrite sort_perm in Hx, Hy, Hz.
    apply Htrans; assumption.
  - intros x y Hx Hy. rewrite sort_perm in Hx, Hy. apply Hanti; assumption.
  - rewrite !sort_perm. exact Hperm.
  - apply sort_ordered. exact Htotal.
  - apply sort_ordered. intros a b Ha Hb.
    rewrite <- Hperm in Ha, Hb. apply Htotal; assumption.
Qed.
End UploadOrder.

(** The three files in two orders of completion. *)
Lemma upload_order_independent_witness :
  consistentOn (@comparePaths modelHost) [upperB; lowerA; tsFile 7]
  /\ [upperB; lowerA; tsFile 7] ≡ₚ [tsFile 7; upperB; lowerA]
  /\ @uploadedFiles modelHost [upperB; lowerA; tsFile 7]
     = @uploadedFiles modelHost [tsFile 7; upperB; lowerA].
Proof.
  assert (Hc : consistentOn (@comparePaths modelHost)
                 [upperB; lowerA; tsFile 7]).
  { split.
    - intros a b Ha Hb. rewrite !elem_of_cons, elem_of_nil in Ha, Hb.
      destruct Ha as [-> | [-> | [-> | []]]];
        destruct Hb as [-> | [-> | [-> | []]]];
        vm_compute; intuition discriminate.
    - intros a b c Ha Hb Hc.
      rewrite !elem_of_cons, elem_of_nil in Ha, Hb, Hc.
      destruct Ha as [-> | [-> | [-> | []]]];
        destruct Hb as [-> | [-> | [-> | []]]];
        destruct Hc as [-> | [-> | [-> | []]]];
        vm_compute; intuition discriminate. }
  assert (Hanti : forall a b, a ∈ [upperB; lowerA; tsFile 7] ->
            b ∈ [upperB; lowerA; tsFile 7] ->
            (@comparePaths modelHost a b <= 0)%Z ->
            (@comparePaths modelHost b a <= 0)%Z -> a = b).
  { intros a b Ha Hb. rewrite !elem_of_cons, elem_of_nil in Ha, Hb.
    destruct Ha as [-> | [-> | [-> | []]]];
      destruct Hb as [-> | [-> | [-> | []]]];
      vm_compute; intros H1 H2; try reflexivity;
      exfalso; (apply H1; reflexivity) || (apply H2; reflexivity). }
  assert (Hperm : [upperB; lowerA; tsFile 7] ≡ₚ [tsFile 7; upperB; lowerA]).
  { change ([upperB; lowerA] ++ [tsFile 7] ≡ₚ [tsFile 7] ++ [upperB; lowerA]).
    apply Permutation_app_comm. }
  split; [exact Hc|]. split; [exact Hperm|].
  exact (@upload_order_independent modelHost _ _ Hc Hanti Hperm).
Defined.

(* ===================================================================== *)
(** * The report panel *)
(* ===================================================================== *)

Lemma forallb_strings (vs : list json) :
  forallb (fun v => match v with JString _ => true | _ => false end) vs = true ->
  Forall (fun v => exists s, v = JString s) vs.
Proof.
  rewrite forallb_forall, List.Forall_forall. intros Hall v Hin.
  specialize (Hall v Hin). destruct v; try discriminate. eauto.
Qed.

(** X14. A parsed response that has the shape of the declared schema
    can always be shown: both [.map] calls of the report panel find an
    array, and every element of the two lists is a string. *)
Theorem conforming_report_renders (analysis : json) :
  conforms analysisSchema analysis = true ->
  exists dependencies suggestions,
    App.reportLists analysis = Some (dependencies, suggestions)
    /\ App.property analysis "dependencies" = Some (JArray dependencies)
    /\ App.property analysis "suggestions" = Some (JArray suggestions)
    /\ Forall (fun v => exists s, v = JString s) dependencies
    /\ Forall (fun v => exists s, v = JString s) suggestions.
Proof.
  destruct analysis as [| | | | |members]; try discriminate.
  unfold analysisSchema. cbn [conforms forallb fst snd].
  unfold App.reportLists, App.property.
  destruct (member (lit "dependencies") members) as [deps|] eqn:Hd.
  2:{ rewrite !andb_true_iff, !bool_decide_eq_true.
      intros [(_ & _ & [x Hx] & _) _]. discriminate. }
  destruct (member (lit "suggestions") members) as [sugs|] eqn:Hs.
  2:{ rewrite !andb_true_iff, !bool_decide_eq_true.
      intros [(_ & _ & _ & _ & [x Hx] & _) _]. discriminate. }
  rewrite !andb_true_iff. intros [_ (_ & _ & Hdeps & _ & Hsugs & _)].
  destruct deps as [| | | |dependencies|]; try discriminate.
  destruct sugs as [| | | |suggestions|]; try discriminate.
  exists dependencies, suggestions. cbn [App.mapReceiver].
  repeat split; auto using forallb_strings.
Qed.

Section ReportAfterRun.
Context `{Host}.

(** X15. Nothing stands between a malformed answer and the report
    panel: when the body parses to an object whose [dependencies] is
    missing or not an array, [runAnalysis] stores that object as the
    report and sets no error message, and rendering the report then
    throws. *)
Theorem malformed_report_reaches_panel (st : App.state) (w : world)
  (text : option jsstring) (members : list (jsstring * json)) :
  let analysis := JObject members in
  App.files st <> [] ->
  service w (analysisRequest (filesContext (App.files st))) = Resolves text ->
  JSON_parse (textToString text) = Some analysis ->
  (forall items, member (lit "dependencies") members <> Some (JArray items)) ->
  App.analysis (fst (App.runAnalysis st w)) = Some analysis
  /\ App.error (fst (App.runAnalysis st w)) = None
  /\ App.reportLists analysis = None.
Proof.
  intros analysis Hne Hsvc Hparse Hdeps.
  assert (Hout : fst (analyzeCodebase (App.files st) w) = Fulfilled analysis).
  { rewrite analyzeCodebase_outcome, Hsvc, Hparse. reflexivity. }
  unfold App.runAnalysis, App.runAnalysis_begin.
  destruct (App.files st) as [|f rest] eqn:Hfiles; [congruence|].
  destruct (analyzeCodebase (f :: rest) w) as [o w'].
  simpl in Hout. subst o. cbn. split; [reflexivity|]. split; [reflexivity|].
  unfold App.reportLists, analysis. cbn [App.property].
  destruct (member (lit "dependencies") members) as [[| | | |items|]|];
    try reflexivity.
  exfalso. exact (Hdeps items eq_refl).
Qed.
End ReportAfterRun.

(** The complete body of the examples. *)
Lemma conforming_report_renders_witness :
  let analysis := default JNull (@JSON_parse modelHost completeBody) in
  conforms analysisSchema analysis = true
  /\ App.reportLists analysis = Some ([JString (lit "react")], []).
Proof.
  cbv zeta.
  assert (Hc : conforms analysisSchema
                 (default JNull (@JSON_parse modelHost completeBody)) = true).
  { vm_compute. reflexivity. }
  split; [exact Hc|].
  destruct (conforming_report_renders _ Hc) as (deps & sugs & Hr & _).
  rewrite Hr. vm_compute in Hr. injection Hr as <- <-. reflexivity.
Defined.

(** The body without [dependencies], answered to a run on [f01.ts]. *)
Lemma malformed_report_reaches_panel_witness :
  let st := App.setFiles [tsFile 1] App.initial in
  let members :=
    [(lit "summary", JString (lit "s"));
     (lit "entryPoint", JString (lit "main.ts"));
     (lit "executionSimulation", JString (lit "x"));
     (lit "suggestions", JArray [])] in
  App.files st <> []
  /\ @JSON_parse modelHost bodyWithoutDependencies = Some (JObject members)
  /\ member (lit "dependencies") members = None
  /\ App.analysis (fst (@App.runAnalysis modelHost st
                          (answering bodyWithoutDependencies)))
     = Some (JObject members)
  /\ App.reportLists (JObject members) = None.
Proof.
  cbv zeta.
  assert (Hne : App.files (App.setFiles [tsFile 1] App.initial) <> [])
    by discriminate.
  assert (Hparse : @JSON_parse modelHost bodyWithoutDependencies
            = Some (JObject
                      [(lit "summary", JString (lit "s"));
                       (lit "entryPoint", JString (lit "main.ts"));
                       (lit "executionSimulation", JString (lit "x"));
                       (lit "suggestions", JArray [])])).
  { vm_compute. reflexivity. }
  assert (Hprop : member (lit "dependencies")
                    [(lit "summary", JString (lit "s"));
                     (lit "entryPoint", JString (lit "main.ts"));
                     (lit "executionSimulation", JString (lit "x"));
                     (lit "suggestions", JArray [])] = None).
  { vm_compute. reflexivity. }
  split; [exact Hne|]. split; [exact Hparse|]. split; [exact Hprop|].
  destruct (@malformed_report_reaches_panel modelHost
              (App.setFiles [tsFile 1] App.initial)
              (answering bodyWithoutDependencies)
              (Some bodyWithoutDependencies) _ Hne eq_refl Hparse)
    as (Ha & _ & Hr).
  - intros items. rewrite Hprop. discriminate.
  - split; [exact Ha | exact Hr].
Defined.

(* ===================================================================== *)
(** * The application as events interleave *)
(* ===================================================================== *)

Ltac app_step :=
  cbn [foldl App.step App.handleFileUpload_begin App.handleFileUpload_finish
       App.runAnalysis_begin App.runAnalysis_finish App.runDisabled
       App.clickFile App.app App.net App.uploads App.analyses App.files
       App.selectedFile App.isUploading App.isAnalyzing App.analysis
       App.error App.setFiles App.setSelectedFile App.setIsUploading
       App.setIsAnalyzing App.setAnalysis App.setError App.initial
       lookup list_lookup delete list_delete app negb orb length Nat.eqb].

Lemma sort_nonempty {A} (cmp : A -> A -> Z) (l : list A) :
  l <> [] -> sort cmp l <> [].
Proof.
  intros Hne Hs. apply Hne. apply Permutation_nil.
  rewrite <- Hs. apply sort_perm.
Qed.

Section AppMachine.
Context `{Host}.

Lemma begin_upload_selection (file : option jsstring) (st : App.state) :
  App.selectionIsFile st ->
  App.selectionIsFile (fst (App.handleFileUpload_begin file st)).
Proof.
  unfold App.handleFileUpload_begin. destruct file as [fileName|]; [|auto].
  destruct (negb _); [auto | intros _; exact I].
Qed.

Lemma begin_upload_isAnalyzing (file : option jsstring) (st : App.state) :
  App.isAnalyzing (fst (App.handleFileUpload_begin file st))
  = App.isAnalyzing st.
Proof.
  unfold App.handleFileUpload_begin. destruct file as [fileName|]; [|auto].
  destruct (negb _); reflexivity.
Qed.

Lemma step_selection (m : App.machine) (e : App.event) :
  App.selectionIsFile (App.app m) -> App.selectionIsFile (App.app (App.step m e)).
Proof.
  intros Hsel. destruct e as [file d | k | | k | i]; cbn [App.step].
  - pose proof (begin_upload_selection file (App.app m) Hsel) as Hb.
    destruct (App.handleFileUpload_begin file (App.app m)). exact Hb.
  - destruct (App.uploads m !! k) as [[|extracted]|]; exact Hsel.
  - destruct (App.runDisabled (App.app m)); [exact Hsel|].
    unfold App.runAnalysis_begin.
    destruct (App.files (App.app m)); [exact Hsel|].
    destruct (analyzeCodebase _ _). exact Hsel.
  - destruct (App.analyses m !! k) as [[result | err |]|]; exact Hsel.
  - cbn [App.app]. unfold App.clickFile.
    destruct (App.isUploading (App.app m)); [exact Hsel|].
    destruct (App.files (App.app m) !! i) as [f|]; [|exact Hsel].
    destruct (isDirectory f) eqn:Hdir; [exact Hsel|].
    exact Hdir.
Qed.

Lemma step_awaited (m : App.machine) (e : App.event) :
  App.oneAwaited m -> App.oneAwaited (App.step m e).
Proof.
  unfold App.oneAwaited. intros Hinv.
  destruct e as [file d | k | | k | i]; cbn [App.step].
  - pose proof (begin_upload_isAnalyzing file (App.app m)) as Hb.
    destruct (App.handleFileUpload_begin file (App.app m)) as [st1 started].
    simpl in Hb |- *. rewrite Hb. exact Hinv.
  - destruct (App.uploads m !! k) as [[|extracted]|]; exact Hinv.
  - destruct (App.runDisabled (App.app m)) eqn:Hdis; [exact Hinv|].
    unfold App.runDisabled in Hdis. apply orb_false_iff in Hdis as [Hlen Hna].
    rewrite Hna in Hinv. unfold App.runAnalysis_begin.
    destruct (App.files (App.app m)) as [|f rest]; [discriminate|].
    destruct (analyzeCodebase _ _) as [o w']. cbn.
    rewrite length_app, Hinv. reflexivity.
  - destruct (App.analyses m !! k) as [o|] eqn:Hk; [|exact Hinv].
    assert (Hlen : length (App.analyses m) = 1%nat
                   /\ App.isAnalyzing (App.app m) = true).
    { apply lookup_lt_Some in Hk.
      destruct (App.isAnalyzing (App.app m)); [auto | lia]. }
    destruct Hlen as [Hlen Hta].
    destruct o as [result | err |]; [| | exact Hinv]; cbn;
      rewrite length_delete by eauto; rewrite Hlen; reflexivity.
  - cbn [App.analyses App.app]. unfold App.clickFile.
    destruct (App.isUploading (App.app m)); [exact Hinv|].
    destruct (App.files (App.app m) !! i) as [f|]; [|exact Hinv].
    destruct (negb (isDirectory f)); exact Hinv.
Qed.

Lemma step_sent (m : App.machine) (e : App.event) :
  service (App.net (App.step m e)) = service (App.net m)
  /\ exists reqs,
       sent (App.net (App.step m e)) = sent (App.net m) ++ reqs
       /\ (length reqs <= App.runClicks [e])%nat.
Proof.
  destruct e as [file d | k | | k | i]; cbn [App.step].
  - destruct (App.handleFileUpload_begin file (App.app m)).
    split; [reflexivity|]. exists []. rewrite app_nil_r. split; [reflexivity | simpl; lia].
  - split; [destruct (App.uploads m !! k); reflexivity|].
    exists []. rewrite app_nil_r.
    destruct (App.uploads m !! k); split; try reflexivity; simpl; lia.
  - destruct (App.runDisabled (App.app m)).
    { split; [reflexivity|]. exists []. rewrite app_nil_r. split; [reflexivity | simpl; lia]. }
    unfold App.runAnalysis_begin.
    destruct (App.files (App.app m)) as [|f rest].
    { split; [reflexivity|]. exists []. rewrite app_nil_r. split; [reflexivity | simpl; lia]. }
    pose proof (analyzeCodebase_sent (f :: rest) (App.net m)) as Hsent.
    assert (Hsvc : service (snd (analyzeCodebase (f :: rest) (App.net m)))
                   = service (App.net m)).
    { unfold analyzeCodebase.
      destruct (service (App.net m) _) as [cause | text |];
        [reflexivity | | reflexivity].
      destruct (JSON_parse _); reflexivity. }
    destruct (analyzeCodebase (f :: rest) (App.net m)) as [o w'].
    simpl in Hsent, Hsvc |- *. split; [exact Hsvc|].
    eexists. split; [exact Hsent|]. unfold App.runClicks. simpl. lia.
  - split; [destruct (App.analyses m !! k) as [[| |]|]; reflexivity|].
    exists []. rewrite app_nil_r.
    destruct (App.analyses m !! k) as [[| |]|]; split; try reflexivity;
      simpl; lia.
  - split; [reflexivity|]. exists []. rewrite app_nil_r. split; [reflexivity | simpl; lia].
Qed.

Lemma runClicks_cons (e : App.event) (events : list App.event) :
  App.runClicks (e :: events)
  = (App.runClicks [e] + App.runClicks events)%nat.
Proof. unfold App.runClicks. simpl. destruct e; reflexivity. Qed.

Lemma run_invariants (m : App.machine) (events : list App.event) :
  App.selectionIsFile (App.app m) -> App.oneAwaited m ->
  App.selectionIsFile (App.app (App.run m events))
  /\ App.oneAwaited (App.run m events)
  /\ service (App.net (App.run m events)) = service (App.net m)
  /\ exists reqs,
       sent (App.net (App.run m events)) = sent (App.net m) ++ reqs
       /\ (length reqs <= App.runClicks events)%nat.
Proof.
  revert m. induction events as [|e events IH]; intros m Hsel Hone.
  - repeat split; auto. exists []. rewrite app_nil_r.
    split; [reflexivity | simpl; lia].
  - unfold App.run. cbn [foldl]. fold (App.run (App.step m e) events).
    destruct (IH (App.step m e) (step_selection m e Hsel)
                 (step_awaited m e Hone))
      as (Hs & Ho & Hsvc & reqs & Hsent & Hlen).
    destruct (step_sent m e) as (Hsvc1 & reqs1 & Hsent1 & Hlen1).
    split; [exact Hs|]. split; [exact Ho|].
    split; [rewrite Hsvc; exact Hsvc1|].
    exists (reqs1 ++ reqs). rewrite Hsent, Hsent1, <- app_assoc.
    split; [reflexivity|].
    rewrite length_app, runClicks_cons. lia.
Qed.

(** X16. Whatever the user does and however the uploads and analyses
    interleave, the file shown in the preview is never a directory. *)
Theorem preview_never_directory (w : world) (events : list App.event) :
  match App.selectedFile (App.app (App.run (App.mounted w) events)) with
  | Some f => isDirectory f = false
  | None => True
  end.
Proof.
  apply (run_invariants (App.mounted w) events); [exact I | reflexivity].
Qed.

(** X17. At most one analysis is awaited at any time, and exactly one
    while [isAnalyzing] is set: the disabled Run button keeps a second
    request from being sent before the first has settled. *)
Theorem one_analysis_at_a_time (w : world) (events : list App.event) :
  let m := App.run (App.mounted w) events in
  (length (App.analyses m) <= 1)%nat
  /\ (App.isAnalyzing (App.app m) = true <-> length (App.analyses m) = 1%nat)
  /\ (App.isAnalyzing (App.app m) = true -> App.runDisabled (App.app m) = true).
Proof.
  cbv zeta.
  destruct (run_invariants (App.mounted w) events I eq_refl)
    as (_ & Hone & _).
  unfold App.oneAwaited in Hone. unfold App.runDisabled.
  destruct (App.isAnalyzing (App.app (App.run (App.mounted w) events)));
    rewrite Hone; repeat split; auto with lia; try discriminate.
Qed.

(** X18. Requests leave the program only on clicks on the Run button,
    at most one for each click: the requests already sent are kept in
    order, the new ones follow them, and picking, decoding or selecting
    files sends nothing. *)
Theorem requests_need_clicks (w : world) (events : list App.event) :
  let m := App.run (App.mounted w) events in
  service (App.net m) = service w
  /\ exists reqs,
       sent (App.net m) = sent w ++ reqs
       /\ (length reqs <= App.runClicks events)%nat.
Proof.
  cbv zeta.
  destruct (run_invariants (App.mounted w) events I eq_refl)
    as (_ & _ & Hsvc & Hreqs).
  split; [exact Hsvc | exact Hreqs].
Qed.

(** X19. A report can outlive the files it was made for.  When a second
    archive is uploaded while the analysis of the first is awaited, the
    answer that then arrives, if it is not [null], is stored all the
    same: the list shows the second archive and the report describes
    the first. *)
Theorem report_can_outlive_its_files (w : world) (zipA zipB : jsstring)
  (extractedA extractedB : list ZipFile) (result : json) :
  lit ".zip" `suffix_of` zipA ->
  lit ".zip" `suffix_of` zipB ->
  extractedA <> [] ->
  fst (analyzeCodebase (uploadedFiles extractedA) w) = Fulfilled result ->
  result <> JNull ->
  let m := App.run (App.mounted w)
             [App.PickFile (Some zipA) (App.Extracted extractedA);
              App.UploadSettles 0;
              App.ClickRun;
              App.PickFile (Some zipB) (App.Extracted extractedB);
              App.UploadSettles 0;
              App.AnalysisSettles 0] in
  App.files (App.app m) = uploadedFiles extractedB
  /\ App.analysis (App.app m) = Some result
  /\ App.error (App.app m) = None
  /\ App.isAnalyzing (App.app m) = false
  /\ sent (App.net m)
     = sent w ++ [analysisRequest (filesContext (uploadedFiles extractedA))].
Proof.
  intros HA HB Hne Hout Hnn.
  apply endsWith_suffix in HA, HB.
  pose proof (analyzeCodebase_sent (uploadedFiles extractedA) w) as Hsent.
  assert (Hfiles : uploadedFiles extractedA <> [])
    by (apply sort_nonempty; exact Hne).
  destruct (uploadedFiles extractedA) as [|f rest] eqn:HfA; [congruence|].
  destruct (analyzeCodebase (f :: rest) w) as [o w'] eqn:Hrun.
  simpl in Hout, Hsent. subst o.
  unfold App.run, App.mounted.
  app_step. rewrite HA. app_step. rewrite HfA. app_step.
  rewrite Hrun. app_step. rewrite HB. app_step.
  rewrite (reportCell_nonnull result Hnn).
  repeat split. exact Hsent.
Qed.

(** X20. The selection can outlive the list as well.  When two uploads
    are under way and a file of the first is selected before the second
    has been decoded, the preview keeps that file while the list shows
    the second archive. *)
Theorem selection_can_outlive_its_list (w : world) (zipA zipB : jsstring)
  (extractedA extractedB : list ZipFile) (i : nat) (f : ZipFile) :
  lit ".zip" `suffix_of` zipA ->
  lit ".zip" `suffix_of` zipB ->
  uploadedFiles extractedA !! i = Some f ->
  isDirectory f = false ->
  let m := App.run (App.mounted w)
             [App.PickFile (Some zipA) (App.Extracted extractedA);
              App.PickFile (Some zipB) (App.Extracted extractedB);
              App.UploadSettles 0;
              App.ClickFile i;
              App.UploadSettles 0] in
  App.files (App.app m) = uploadedFiles extractedB
  /\ App.selectedFile (App.app m) = Some f
  /\ App.isUploading (App.app m) = false.
Proof.
  intros HA HB Hi Hfile.
  apply endsWith_suffix in HA, HB.
  unfold App.run, App.mounted.
  app_step. rewrite HA. app_step. rewrite HB. app_step.
  rewrite Hi. cbv iota beta. rewrite Hfile. app_step.
  repeat split.
Qed.
End AppMachine.

(* ===================================================================== *)
(** * The application on concrete inputs *)
(* ===================================================================== *)

(** One file, and a service that fails: the request is sent once. *)
Lemma runAnalysis_requests_witness :
  App.files (App.setFiles [tsFile 1] App.initial) <> []
  /\ sent (snd (@App.runAnalysis modelHost
                  (App.setFiles [tsFile 1] App.initial)
                  (failing (lit "quota exceeded"))))
     = [analysisRequest (@filesContext modelHost [tsFile 1])]
  /\ @App.runAnalysis modelHost App.initial (failing (lit "quota exceeded"))
     = (App.initial, failing (lit "quota exceeded")).
Proof.
  assert (Hne : App.files (App.setFiles [tsFile 1] App.initial) <> [])
    by discriminate.
  split; [exact Hne|]. split.
  - exact (proj1 (proj2 (@runAnalysis_requests modelHost
                           (App.setFiles [tsFile 1] App.initial)
                           (failing (lit "quota exceeded"))) Hne)).
  - exact (proj1 (@runAnalysis_requests modelHost App.initial
                    (failing (lit "quota exceeded"))) eq_refl).
Defined.

(** A failed run after a successful one: the old report stays. *)
Lemma runAnalysis_failure_witness :
  let st := App.setAnalysis (Some (JString (lit "old report")))
              (App.setFiles [tsFile 1] App.initial) in
  App.files st <> []
  /\ fst (@analyzeCodebase modelHost (App.files st)
            (failing (lit "quota exceeded")))
     = Rejected (UpstreamError (lit "quota exceeded"))
  /\ App.error (fst (@App.runAnalysis modelHost st
                       (failing (lit "quota exceeded"))))
     = Some App.analysisFailedMessage
  /\ App.analysis (fst (@App.runAnalysis modelHost st
                          (failing (lit "quota exceeded"))))
     = Some (JString (lit "old report")).
Proof.
  cbv zeta.
  assert (Hne : App.files (App.setAnalysis (Some (JString (lit "old report")))
                             (App.setFiles [tsFile 1] App.initial)) <> [])
    by discriminate.
  split; [exact Hne|]. split; [reflexivity|].
  destruct (@runAnalysis_failure modelHost _ (failing (lit "quota exceeded"))
              (UpstreamError (lit "quota exceeded")) Hne eq_refl)
    as (He & Ha & _).
  split; [exact He | exact Ha].
Defined.

(** A successful run after a failed upload message. *)
Lemma runAnalysis_success_witness :
  let st := App.setError (Some App.invalidZipMessage)
              (App.setFiles [tsFile 1] App.initial) in
  let result := default JNull (@JSON_parse modelHost completeBody) in
  App.files st <> []
  /\ fst (@analyzeCodebase modelHost (App.files st) (answering completeBody))
     = Fulfilled result
  /\ result <> JNull
  /\ App.analysis (fst (@App.runAnalysis modelHost st (answering completeBody)))
     = Some result
  /\ App.error (fst (@App.runAnalysis modelHost st (answering completeBody)))
     = None.
Proof.
  cbv zeta.
  assert (Hne : App.files (App.setError (Some App.invalidZipMessage)
                             (App.setFiles [tsFile 1] App.initial)) <> [])
    by discriminate.
  assert (Hout : fst (@analyzeCodebase modelHost
                        (App.files (App.setError (Some App.invalidZipMessage)
                                      (App.setFiles [tsFile 1] App.initial)))
                        (answering completeBody))
                 = Fulfilled (default JNull (@JSON_parse modelHost completeBody))).
  { vm_compute. reflexivity. }
  assert (Hnn : default JNull (@JSON_parse modelHost completeBody) <> JNull).
  { vm_compute. discriminate. }
  split; [exact Hne|]. split; [exact Hout|]. split; [exact Hnn|].
  destruct (@runAnalysis_success modelHost _ (answering completeBody) _
              Hne Hout) as (Ha & _ & He & _).
  split; [exact (Ha Hnn) | exact He].
Defined.

(** The extension in upper case is refused. *)
Lemma upload_refuses_other_names_witness :
  ~ lit ".zip" `suffix_of` lit "ARCHIVE.ZIP"
  /\ @App.handleFileUpload modelHost (Some (lit "ARCHIVE.ZIP"))
       (App.Extracted [tsFile 1]) (App.setFiles [tsFile 2] App.initial)
     = App.setError (Some App.invalidZipMessage)
         (App.setFiles [tsFile 2] App.initial).
Proof.
  assert (Hname : ~ lit ".zip" `suffix_of` lit "ARCHIVE.ZIP").
  { intros Hs. apply endsWith_suffix in Hs. vm_compute in Hs. discriminate. }
  split; [exact Hname|].
  exact (proj1 (@upload_refuses_other_names modelHost _ _ _ Hname)).
Defined.

(** An archive with a directory and a file, the file read first. *)
Lemma upload_success_witness :
  let entries :=
    [(lit "src/", mkZipEntry true (lit "src/") (lit "ignored"));
     (lit "src/a.ts", mkZipEntry false (lit "src/a.ts") (lit "let a;"))] in
  let extractedFiles :=
    [extractEntry (lit "src/a.ts")
       (mkZipEntry false (lit "src/a.ts") (lit "let a;"));
     extractEntry (lit "src/")
       (mkZipEntry true (lit "src/") (lit "ignored"))] in
  lit ".zip" `suffix_of` lit "project.zip"
  /\ App.pushedFrom entries extractedFiles
  /\ App.fileCount (@App.handleFileUpload modelHost (Some (lit "project.zip"))
                      (App.Extracted extractedFiles)
                      (App.setFiles [tsFile 2] App.initial))
     = 1%nat.
Proof.
  cbv zeta.
  assert (Hname : lit ".zip" `suffix_of` lit "project.zip").
  { apply endsWith_suffix. vm_compute. reflexivity. }
  assert (Hpushed : App.pushedFrom
            [(lit "src/", mkZipEntry true (lit "src/") (lit "ignored"));
             (lit "src/a.ts",
               mkZipEntry false (lit "src/a.ts") (lit "let a;"))]
            [extractEntry (lit "src/a.ts")
               (mkZipEntry false (lit "src/a.ts") (lit "let a;"));
             extractEntry (lit "src/")
               (mkZipEntry true (lit "src/") (lit "ignored"))]).
  { unfold App.pushedFrom. cbn [List.map fst snd]. apply Permutation_swap. }
  split; [exact Hname|]. split; [exact Hpushed|].
  destruct (@upload_success modelHost _ _ _
              (App.setFiles [tsFile 2] App.initial) Hname Hpushed)
    as (_ & Hcount & _).
  rewrite Hcount. reflexivity.
Defined.

(** A corrupted archive picked while files are listed. *)
Lemma upload_failure_clears_witness :
  lit ".zip" `suffix_of` lit "broken.zip"
  /\ App.files (@App.handleFileUpload modelHost (Some (lit "broken.zip"))
                  App.DecodeFails (App.setFiles [tsFile 2] App.initial))
     = [].
Proof.
  assert (Hname : lit ".zip" `suffix_of` lit "broken.zip").
  { apply endsWith_suffix. vm_compute. reflexivity. }
  split; [exact Hname|].
  rewrite (@upload_failure_clears modelHost _
             (App.setFiles [tsFile 2] App.initial) Hname).
  reflexivity.
Defined.

(** The report of [f01.ts] beside the list of [a.ts]. *)
Lemma report_can_outlive_its_files_witness :
  let result := default JNull (@JSON_parse modelHost completeBody) in
  let m := @App.run modelHost (App.mounted (answering completeBody))
             [App.PickFile (Some (lit "one.zip")) (App.Extracted [tsFile 1]);
              App.UploadSettles 0;
              App.ClickRun;
              App.PickFile (Some (lit "two.zip")) (App.Extracted [lowerA]);
              App.UploadSettles 0;
              App.AnalysisSettles 0] in
  lit ".zip" `suffix_of` lit "one.zip"
  /\ lit ".zip" `suffix_of` lit "two.zip"
  /\ fst (@analyzeCodebase modelHost (@uploadedFiles modelHost [tsFile 1])
            (answering completeBody)) = Fulfilled result
  /\ result <> JNull
  /\ App.files (App.app m) = [lowerA]
  /\ App.analysis (App.app m) = Some result.
Proof.
  cbv zeta.
  assert (H1 : lit ".zip" `suffix_of` lit "one.zip").
  { apply endsWith_suffix. vm_compute. reflexivity. }
  assert (H2 : lit ".zip" `suffix_of` lit "two.zip").
  { apply endsWith_suffix. vm_compute. reflexivity. }
  assert (Hout : fst (@analyzeCodebase modelHost
                        (@uploadedFiles modelHost [tsFile 1])
                        (answering completeBody))
                 = Fulfilled (default JNull (@JSON_parse modelHost completeBody))).
  { vm_compute. reflexivity. }
  assert (Hnn : default JNull (@JSON_parse modelHost completeBody) <> JNull).
  { vm_compute. discriminate. }
  split; [exact H1|]. split; [exact H2|]. split; [exact Hout|].
  split; [exact Hnn|].
  destruct (@report_can_outlive_its_files modelHost (answering completeBody)
              _ _ [tsFile 1] [lowerA] _ H1 H2 ltac:(discriminate) Hout Hnn)
    as (Hf & Ha & _).
  split; [exact Hf | exact Ha].
Defined.

(** [f01.ts] stays in the preview beside the list of [a.ts]. *)
Lemma selection_can_outlive_its_list_witness :
  let m := @App.run modelHost (App.mounted (answering completeBody))
             [App.PickFile (Some (lit "one.zip")) (App.Extracted [tsFile 1]);
              App.PickFile (Some (lit "two.zip")) (App.Extracted [lowerA]);
              App.UploadSettles 0;
              App.ClickFile 0;
              App.UploadSettles 0] in
  lit ".zip" `suffix_of` lit "one.zip"
  /\ lit ".zip" `suffix_of` lit "two.zip"
  /\ @uploadedFiles modelHost [tsFile 1] !! 0%nat = Some (tsFile 1)
  /\ App.files (App.app m) = [lowerA]
  /\ App.selectedFile (App.app m) = Some (tsFile 1).
Proof.
  cbv zeta.
  assert (H1 : lit ".zip" `suffix_of` lit "one.zip").
  { apply endsWith_suffix. vm_compute. reflexivity. }
  assert (H2 : lit ".zip" `suffix_of` lit "two.zip").
  { apply endsWith_suffix. vm_compute. reflexivity. }
  split; [exact H1|]. split; [exact H2|]. split; [reflexivity|].
  destruct (@selection_can_outlive_its_list modelHost
              (answering completeBody) _ _ [tsFile 1] [lowerA] 0 (tsFile 1)
              H1 H2 eq_refl eq_refl) as (Hf & Hs & _).
  split; [exact Hf | exact Hs].
Defined.

(* ===================================================================== *)
(** * What [isLikelyText] looks at *)
(* ===================================================================== *)

Lemma suffix_within_tail (x s : jsstring) (n : nat) :
  (length x <= n)%nat ->
  x `suffix_of` s <-> x `suffix_of` drop (length s - n) s.
Proof.
  intros Hn. split.
  - intros [k ->]. exists (drop (length (k ++ x) - n) k).
    rewrite length_app. rewrite drop_app_le by lia. reflexivity.
  - intros [k Hk]. exists (take (length s - n) s ++ k).
    rewrite <- app_assoc, <- Hk. symmetry. apply take_drop.
Qed.

Lemma textExtensions_shape :
  Forall (fun ext => (length ext <= 5)%nat /\ 46%N ∈ ext) textExtensions.
Proof.
  unfold textExtensions.
  repeat (apply Forall_cons; split; [split; [simpl; lia | left] |]).
  apply Forall_nil. exact I.
Qed.

Section LikelyText.
Context `{Host}.

(** X21. Only the end of the lower-cased name is looked at: two names
    whose lower-cased forms have the same last five code units are both
    kept or both dropped, and a name whose lower-cased form has no full
    stop is always dropped. *)
Theorem isLikelyText_tail (a b : jsstring) :
  (drop (length (toLowerCase a) - 5) (toLowerCase a)
   = drop (length (toLowerCase b) - 5) (toLowerCase b) ->
   isLikelyText a = isLikelyText b)
  /\ ((46%N ∉ toLowerCase a) -> isLikelyText a = false).
Proof.
  pose proof textExtensions_shape as Hshape.
  rewrite List.Forall_forall in Hshape. split.
  - intros Htail. apply eq_true_iff_eq.
    rewrite !isLikelyText_spec.
    split; intros (ext & Hin & Hends); exists ext; (split; [exact Hin|]);
      apply endsWith_suffix; apply endsWith_suffix in Hends;
      destruct (Hshape ext (proj1 (list_elem_of_In _ _) Hin)) as [Hlen _].
    + apply (proj2 (suffix_within_tail ext (toLowerCase b) 5 Hlen)).
      rewrite <- Htail.
      apply (proj1 (suffix_within_tail ext (toLowerCase a) 5 Hlen)).
      exact Hends.
    + apply (proj2 (suffix_within_tail ext (toLowerCase a) 5 Hlen)).
      rewrite Htail.
      apply (proj1 (suffix_within_tail ext (toLowerCase b) 5 Hlen)).
      exact Hends.
  - intros Hdot. destruct (isLikelyText a) eqn:Ha; [|reflexivity].
    apply isLikelyText_spec in Ha. destruct Ha as (ext & Hin & Hends).
    apply endsWith_suffix in Hends. destruct Hends as [k Hk].
    destruct (Hshape ext (proj1 (list_elem_of_In _ _) Hin)) as [_ Hext].
    exfalso. apply Hdot. rewrite Hk. apply elem_of_app. right. exact Hext.
Qed.
End LikelyText.

(** Two names that end alike, and a name without a full stop. *)
Lemma isLikelyText_tail_witness :
  drop (length (@toLowerCase modelHost (lit "src/Main.JAVA")) - 5)
       (@toLowerCase modelHost (lit "src/Main.JAVA"))
  = drop (length (@toLowerCase modelHost (lit "x.java")) - 5)
         (@toLowerCase modelHost (lit "x.java"))
  /\ @isLikelyText modelHost (lit "src/Main.JAVA")
     = @isLikelyText modelHost (lit "x.java")
  /\ (46%N ∉ @toLowerCase modelHost (lit "LICENSE"))
  /\ @isLikelyText modelHost (lit "LICENSE") = false.
Proof.
  assert (Htail :
    drop (length (@toLowerCase modelHost (lit "src/Main.JAVA")) - 5)
         (@toLowerCase modelHost (lit "src/Main.JAVA"))
    = drop (length (@toLowerCase modelHost (lit "x.java")) - 5)
           (@toLowerCase modelHost (lit "x.java"))).
  { vm_compute. reflexivity. }
  assert (Hdot : 46%N ∉ @toLowerCase modelHost (lit "LICENSE")).
  { apply (bool_decide_unpack _). vm_compute. exact I. }
  split; [exact Htail|].
  split; [exact (proj1 (@isLikelyText_tail modelHost _ _) Htail)|].
  split; [exact Hdot|].
  exact (proj2 (@isLikelyText_tail modelHost (lit "LICENSE") []) Hdot).
Defined.
